(** * FashionChat: the chat hook ([useChat]) and the message bubble

    A shallow embedding of the client-side conversation engine of the
    FashionSage frontend:

    - [hooks/useChat]: the React hook holding the message log, the loading
      flag and the session id, with its three callbacks [sendMessage],
      [loadChatHistory] and [clearChat];
    - [services/api.ts]: the request that [ApiService.sendMessage] posts,
      and the two interceptors of the axios instance over [localStorage];
    - [components/ChatMessage.tsx]: which attachments a bubble presents;
    - [components/ChatWidget.tsx]: the submit handler and what is shown;
    - [App.tsx] and [components/LoginForm.tsx]: signing in, registering,
      signing out and restoring a session on start.

    React state is modelled by explicit state passing.  An [async] callback
    is split at its [await]: the part that runs synchronously when the
    callback is invoked, and the continuation that runs when the promise
    settles.  A callback reads the [isLoading] and [sessionId] of the render
    that created it, and its continuation keeps them, while functional
    updates ([setMessages(prev => ...)]) read the state current at the time
    they run.  Over time the hook is a current state, the state the last
    render showed, and the requests still pending; a render is an event of
    its own. *)

From Stdlib Require Import String Ascii NArith.
From stdpp Require Import base decidable option list numbers gmap.

Local Open Scope N_scope.
Local Open Scope list_scope.

(** ** JavaScript values *)

(** A JavaScript string is a sequence of UTF-16 code units. *)
Abbreviation JsString := (list N).

(** Source literals are ASCII, one code unit per character. *)
Fixpoint js (s : string) : JsString :=
  match s with
  | EmptyString => []
  | String c t => N_of_ascii c :: js t
  end.

(** Values typed [any] in the source (product and order records). *)
#[warnings="-register-all"]
Inductive Json : Type :=
| JNull
| JBool (b : bool)
| JNum (z : Z)
| JStr (s : JsString)
| JArr (items : list Json)
| JObj (fields : list (JsString * Json)).

(** Truthiness of a string: only the empty string is falsy. *)
Definition truthy (s : JsString) : bool :=
  match s with
  | [] => false
  | _ :: _ => true
  end.

(** Truthiness of a [string | null | undefined]. *)
Definition truthy_opt (o : option JsString) : bool :=
  match o with
  | Some s => truthy s
  | None => false
  end.

(** Truthiness of a value: [null], [false], [0] and the empty string are
    falsy; arrays and objects are truthy, the empty ones too. *)
Definition truthy_json (v : Json) : bool :=
  match v with
  | JNull => false
  | JBool b => b
  | JNum z => negb (z =? 0)%Z
  | JStr s => truthy s
  | JArr _ => true
  | JObj _ => true
  end.

(** Truthiness of a value that may be [undefined]. *)
Definition truthy_any (o : option Json) : bool :=
  match o with
  | Some v => truthy_json v
  | None => false
  end.

(** [a || b] on a possibly [undefined] value [a] and a value [b]. *)
Definition js_or (a : option Json) (b : Json) : Json :=
  match a with
  | Some v => if truthy_json v then v else b
  | None => b
  end.

(** A value that is a non-empty string. *)
Definition nonEmptyText (v : Json) : bool :=
  match v with
  | JStr s => truthy s
  | _ => false
  end.

(** ** [String.prototype.trim] *)

(** ECMAScript WhiteSpace and LineTerminator code points; all of them lie
    in the basic plane, so each is one code unit. *)
Definition is_white_space (c : N) : bool :=
  (c =? 0x0009) || (c =? 0x000A) || (c =? 0x000B) || (c =? 0x000C)
  || (c =? 0x000D) || (c =? 0x0020) || (c =? 0x00A0) || (c =? 0x1680)
  || ((0x2000 <=? c) && (c <=? 0x200A))
  || (c =? 0x2028) || (c =? 0x2029) || (c =? 0x202F) || (c =? 0x205F)
  || (c =? 0x3000) || (c =? 0xFEFF).

Fixpoint trimStart (s : JsString) : JsString :=
  match s with
  | [] => []
  | c :: t => if is_white_space c then trimStart t else s
  end.

Fixpoint trimEnd (s : JsString) : JsString :=
  match s with
  | [] => []
  | c :: t =>
      match trimEnd t with
      | [] => if is_white_space c then [] else [c]
      | t' => c :: t'
      end
  end.

Definition trim (s : JsString) : JsString := trimEnd (trimStart s).

(** ** Types ([types/index.ts] and the hook's own [ChatMessage]) *)

Inductive MessageType : Type := user | assistant.

Module ChatMessage.
(** [content] is declared [string]; the error handler of [sendMessage]
    stores [error.response?.data?.detail] in it unchecked, so at run time
    it holds whatever value the server sent.  A string is a [JStr]. *)
Record t : Type := mk {
  type : MessageType;
  content : Json;
  timestamp : JsString;
  intent : option JsString;
  products : option (list Json);
  orders : option (list Json)
}.
End ChatMessage.

Module ChatResponse.
Record t : Type := mk {
  response : JsString;
  intent : JsString;
  session_id : JsString;
  products : option (list Json);
  orders : option (list Json)
}.
End ChatResponse.

(** The body [ApiService.sendMessage] posts to [/chat/message]. *)
Module ChatRequest.
Record t : Type := mk {
  message : JsString;
  session_id : option JsString
}.
End ChatRequest.

(** What the rejection handler reads of the thrown value:
    [error.response?.data?.detail].  Each link of the chain may be missing. *)
Module AxiosError.
(** [error] is typed [any]: [detail], when present, is whatever value the
    response body holds (a string for most errors, an array of objects for
    a validation error). *)
Record data_t : Type := mk_data { detail : option Json }.
Record response_t : Type := mk_response { data : option data_t }.
Record t : Type := mk { response : option response_t }.
End AxiosError.

(** [error.response?.data?.detail] *)
Definition error_detail (error : AxiosError.t) : option Json :=
  match AxiosError.response error with
  | None => None
  | Some r =>
      match AxiosError.data r with
      | None => None
      | Some d => AxiosError.detail d
      end
  end.

(** How an awaited promise settles. *)
Inductive Settled (A : Type) : Type :=
| Fulfilled (value : A)
| Rejected (error : AxiosError.t).
Arguments Fulfilled {A} value.
Arguments Rejected {A} error.

(** An element of the array [getChatHistory] resolves to (typed [any[]]):
    the fields the hook reads, and the attachments the server may store. *)
Module HistoryEntry.
Record t : Type := mk {
  type : MessageType;
  content : Json;
  timestamp : JsString;
  intent : option JsString;
  products : option (list Json);
  orders : option (list Json)
}.
End HistoryEntry.

(** ** The hook state *)

Record ChatState : Type := mkChatState {
  messages : list ChatMessage.t;
  isLoading : bool;
  sessionId : option JsString
}.

(** [useState] initial values. *)
Definition initialState : ChatState :=
  {| messages := []; isLoading := false; sessionId := None |}.

Definition setMessages (f : list ChatMessage.t -> list ChatMessage.t)
  (st : ChatState) : ChatState :=
  {| messages := f (messages st); isLoading := isLoading st;
     sessionId := sessionId st |}.

Definition setIsLoading (b : bool) (st : ChatState) : ChatState :=
  {| messages := messages st; isLoading := b; sessionId := sessionId st |}.

Definition setSessionId (s : option JsString) (st : ChatState) : ChatState :=
  {| messages := messages st; isLoading := isLoading st; sessionId := s |}.

(** ** [sendMessage] *)

Definition apology : JsString :=
  js "I apologize, but I encountered an error processing your message. Please try again.".

(** The three message literals built by [sendMessage]; [now] stands for
    [new Date().toISOString()] at the point where the literal is built. *)
Definition userMessage (now message : JsString) : ChatMessage.t :=
  {| ChatMessage.type := user;
     ChatMessage.content := JStr (trim message);
     ChatMessage.timestamp := now;
     ChatMessage.intent := None;
     ChatMessage.products := None;
     ChatMessage.orders := None |}.

Definition assistantMessage (now : JsString) (response : ChatResponse.t)
  : ChatMessage.t :=
  {| ChatMessage.type := assistant;
     ChatMessage.content := JStr (ChatResponse.response response);
     ChatMessage.timestamp := now;
     ChatMessage.intent := Some (ChatResponse.intent response);
     ChatMessage.products := ChatResponse.products response;
     ChatMessage.orders := ChatResponse.orders response |}.

Definition errorMessage (now : JsString) (error : AxiosError.t)
  : ChatMessage.t :=
  {| ChatMessage.type := assistant;
     ChatMessage.content := js_or (error_detail error) (JStr apology);
     ChatMessage.timestamp := now;
     ChatMessage.intent := Some (js "error");
     ChatMessage.products := None;
     ChatMessage.orders := None |}.

(** [prev => [...prev, m]] *)
Definition append (m : ChatMessage.t) (prev : list ChatMessage.t)
  : list ChatMessage.t := prev ++ [m].

(** The synchronous part, up to the [await]: the guard, the user message,
    the loading flag, and the request handed to [ApiService.sendMessage]
    ([None] when the guard returns early).  The callback is the one of the
    render that shows [st], so the [isLoading] and [sessionId] it closes
    over are those of [st]. *)
Definition sendMessage_invoke (now message : JsString) (st : ChatState)
  : ChatState * option ChatRequest.t :=
  if negb (truthy (trim message)) || isLoading st then (st, None)
  else
    (setIsLoading true (setMessages (append (userMessage now message)) st),
     Some {| ChatRequest.message := trim message;
             ChatRequest.session_id := sessionId st |}).

(** The same part of a call made through a callback that an earlier render
    created: [useCallback] rebuilds [sendMessage] only when a render sees
    another [isLoading] or [sessionId], and until then the callback at hand
    keeps the values of the state [closure] its render showed.  The guard
    and the request read [closure]; the two updates apply to the state [st]
    current at the call. *)
Definition sendMessage_call (closure : ChatState) (now message : JsString)
  (st : ChatState) : ChatState * option ChatRequest.t :=
  if negb (truthy (trim message)) || isLoading closure then (st, None)
  else
    (setIsLoading true (setMessages (append (userMessage now message)) st),
     Some {| ChatRequest.message := trim message;
             ChatRequest.session_id := sessionId closure |}).

(** The continuation after the [await]: [try] body, [catch] and [finally].
    [captured] is the [sessionId] the closure was created with; [st] is the
    state at the time the promise settles. *)
Definition sendMessage_resume (now : JsString) (captured : option JsString)
  (result : Settled ChatResponse.t) (st : ChatState) : ChatState :=
  let st' :=
    match result with
    | Fulfilled response =>
        let st1 :=
          if negb (truthy_opt captured)
             && truthy (ChatResponse.session_id response)
          then setSessionId (Some (ChatResponse.session_id response)) st
          else st in
        setMessages (append (assistantMessage now response)) st1
    | Rejected error =>
        setMessages (append (errorMessage now error)) st
    end in
  setIsLoading false st'.

(** One whole call with nothing else happening during the [await].
    [api] is the server as seen through [ApiService.sendMessage]. *)
Definition sendMessage (now1 now2 : JsString)
  (api : ChatRequest.t -> Settled ChatResponse.t)
  (message : JsString) (st : ChatState) : ChatState :=
  match sendMessage_invoke now1 message st with
  | (st1, Some request) =>
      sendMessage_resume now2 (ChatRequest.session_id request)
        (api request) st1
  | (st1, None) => st1
  end.

(** ** [loadChatHistory] and [clearChat] *)

(** The object literal inside [history.map]. *)
Definition formatMessage (msg : HistoryEntry.t) : ChatMessage.t :=
  {| ChatMessage.type := HistoryEntry.type msg;
     ChatMessage.content := HistoryEntry.content msg;
     ChatMessage.timestamp := HistoryEntry.timestamp msg;
     ChatMessage.intent := HistoryEntry.intent msg;
     ChatMessage.products := None;
     ChatMessage.orders := None |}.

(** The guard: the session id whose history is requested, if any. *)
Definition loadChatHistory_invoke (st : ChatState) : option JsString :=
  if negb (truthy_opt (sessionId st)) then None else sessionId st.

(** After the [await]: replace the log, or only log the error. *)
Definition loadChatHistory_resume (result : Settled (list HistoryEntry.t))
  (st : ChatState) : ChatState :=
  match result with
  | Fulfilled history => setMessages (fun _ => map formatMessage history) st
  | Rejected _ => st
  end.

Definition loadChatHistory (api : JsString -> Settled (list HistoryEntry.t))
  (st : ChatState) : ChatState :=
  match loadChatHistory_invoke st with
  | Some sid => loadChatHistory_resume (api sid) st
  | None => st
  end.

Definition clearChat (st : ChatState) : ChatState :=
  setIsLoading false (setSessionId None (setMessages (fun _ => []) st)).

(** ** The message bubble ([ChatMessage.tsx]) *)

(** [message.products && message.products.length > 0 &&
    message.products.slice(0, 3).map(...)]: the products that get a card. *)
Definition presentedProducts (message : ChatMessage.t) : list Json :=
  match ChatMessage.products message with
  | Some products =>
      if (0 <? length products)%nat then take 3 products else []
  | None => []
  end.

(** Likewise [message.orders.slice(0, 2)]. *)
Definition presentedOrders (message : ChatMessage.t) : list Json :=
  match ChatMessage.orders message with
  | Some orders => if (0 <? length orders)%nat then take 2 orders else []
  | None => []
  end.

(** ** The hook over time *)

(** The current hook state, the state the last render showed (the one the
    callbacks at hand have closed over), and the requests whose promise has
    not settled yet, each with the [sessionId] its closure captured (the one
    it was sent with). *)
Record World : Type := mkWorld {
  hook : ChatState;
  rendered : ChatState;
  inFlight : list ChatRequest.t
}.

(** What can happen: a [sendMessage] call through the callback at hand, a
    pending request settling, a history load completing, [clearChat], and
    React rendering the current state, which renews the callbacks. *)
Inductive Event : Type :=
| Send (now message : JsString)
| Settle (now : JsString) (i : nat) (result : Settled ChatResponse.t)
| HistoryLoaded (result : Settled (list HistoryEntry.t))
| Clear
| Render.

Definition step (e : Event) (w : World) : World :=
  match e with
  | Send now message =>
      match sendMessage_call (rendered w) now message (hook w) with
      | (st, Some request) =>
          {| hook := st; rendered := rendered w;
             inFlight := inFlight w ++ [request] |}
      | (st, None) =>
          {| hook := st; rendered := rendered w; inFlight := inFlight w |}
      end
  | Settle now i result =>
      match inFlight w !! i with
      | Some request =>
          {| hook := sendMessage_resume now (ChatRequest.session_id request)
                       result (hook w);
             rendered := rendered w;
             inFlight := delete i (inFlight w) |}
      | None => w
      end
  | HistoryLoaded result =>
      {| hook := loadChatHistory_resume result (hook w);
         rendered := rendered w;
         inFlight := inFlight w |}
  | Clear =>
      {| hook := clearChat (hook w); rendered := rendered w;
         inFlight := inFlight w |}
  | Render =>
      {| hook := hook w; rendered := hook w; inFlight := inFlight w |}
  end.

Fixpoint run (es : list Event) (w : World) : World :=
  match es with
  | [] => w
  | e :: es' => run es' (step e w)
  end.

Definition initialWorld : World :=
  {| hook := initialState; rendered := initialState; inFlight := [] |}.

(** ** Properties claimed of the log *)

(** The reply [sendMessage] appends for a settled request. *)
Definition replyMessage (now : JsString) (result : Settled ChatResponse.t)
  : ChatMessage.t :=
  match result with
  | Fulfilled response => assistantMessage now response
  | Rejected error => errorMessage now error
  end.

(** A products (orders) list is attached and non-empty. *)
Definition attached (l : option (list Json)) : bool :=
  match l with
  | Some (_ :: _) => true
  | _ => false
  end.

(** A message carries products or orders, never both. *)
Definition mutuallyExclusive (m : ChatMessage.t) : bool :=
  negb (attached (ChatMessage.products m) && attached (ChatMessage.orders m)).

Definition responseExclusive (r : ChatResponse.t) : bool :=
  negb (attached (ChatResponse.products r) && attached (ChatResponse.orders r)).

(** The closed enumeration of intents. *)
Definition intents : list JsString :=
  [js "product_search"; js "order_inquiry"; js "general"; js "error"].

Definition isIntent (s : JsString) : bool := bool_decide (s ∈ intents).

(** An assistant message has its intent present and within [intents]. *)
Definition intentValid (m : ChatMessage.t) : bool :=
  match ChatMessage.type m with
  | user => true
  | assistant =>
      match ChatMessage.intent m with
      | Some i => isIntent i
      | None => false
      end
  end.

Definition entryIntentValid (e : HistoryEntry.t) : bool :=
  match HistoryEntry.type e with
  | user => true
  | assistant =>
      match HistoryEntry.intent e with
      | Some i => isIntent i
      | None => false
      end
  end.

(** Empty or made of white space only. *)
Definition blank (s : JsString) : bool := forallb is_white_space s.

(** A user message has a string as content, one that is not [blank]. *)
Definition userContentOk (m : ChatMessage.t) : bool :=
  match ChatMessage.type m with
  | user =>
      match ChatMessage.content m with
      | JStr s => truthy s && negb (blank s)
      | _ => false
      end
  | assistant => true
  end.

(** A message without products and without orders. *)
Definition bare (m : ChatMessage.t) : bool :=
  match ChatMessage.products m, ChatMessage.orders m with
  | None, None => true
  | _, _ => false
  end.

(** Events of [sendMessage] calls only, and renders. *)
Definition isSending (e : Event) : bool :=
  match e with
  | Send _ _ | Settle _ _ _ | Render => true
  | HistoryLoaded _ | Clear => false
  end.

(** The session id is [null] or a non-empty string. *)
Definition sessionWf (st : ChatState) : bool :=
  match sessionId st with
  | Some s => truthy s
  | None => true
  end.


(** The callbacks at hand have the current loading flag and session id:
    the last render showed them. *)
Definition inSync (w : World) : bool :=
  bool_decide (isLoading (rendered w) = isLoading (hook w))
  && bool_decide (sessionId (rendered w) = sessionId (hook w)).

(** Every [sendMessage] call of the run goes through a callback that is in
    sync: none is made through a stale callback, before the render that
    follows a change of the flag or of the session id. *)
Definition freshAt (e : Event) (w : World) : bool :=
  match e with
  | Send _ _ => inSync w
  | _ => true
  end.

Fixpoint freshSends (es : list Event) (w : World) : bool :=
  match es with
  | [] => true
  | e :: es' => freshAt e w && freshSends es' (step e w)
  end.




(** ** Sample data *)

Definition t1 : JsString := js "2024-05-01T10:00:00.000Z".
Definition t2 : JsString := js "2024-05-01T10:00:01.000Z".

(** A rejection without a response (network failure, timeout). *)
Definition networkError : AxiosError.t := {| AxiosError.response := None |}.





Definition apiDown (_ : ChatRequest.t) : Settled ChatResponse.t :=
  Rejected networkError.


Definition dress (n : Z) : Json :=
  JObj [(js "id", JNum n); (js "name", JStr (js "Red dress"))].

Definition order (n : Z) : Json :=
  JObj [(js "id", JNum n); (js "status", JStr (js "shipped"))].

(** Five product references, as in the search scenario. *)
Definition searchResponse : ChatResponse.t :=
  {| ChatResponse.response := js "Here are some items you might like";
     ChatResponse.intent := js "product_search";
     ChatResponse.session_id := js "s-1";
     ChatResponse.products := Some [dress 1; dress 2; dress 3; dress 4; dress 5];
     ChatResponse.orders := None |}.

(** A well-typed response carrying products and orders at once. *)
Definition mixedResponse : ChatResponse.t :=
  {| ChatResponse.response := js "Your order and similar items";
     ChatResponse.intent := js "order_inquiry";
     ChatResponse.session_id := js "s-1";
     ChatResponse.products := Some [dress 1];
     ChatResponse.orders := Some [order 7] |}.

(** A well-typed response whose intent is outside the enumeration. *)
Definition greetingResponse : ChatResponse.t :=
  {| ChatResponse.response := js "Hello!";
     ChatResponse.intent := js "greeting";
     ChatResponse.session_id := js "s-1";
     ChatResponse.products := None;
     ChatResponse.orders := None |}.



Definition apiReturning (r : ChatResponse.t) (_ : ChatRequest.t)
  : Settled ChatResponse.t := Fulfilled r.

(** A stored assistant entry with attachments and without an intent. *)
Definition storedReply : HistoryEntry.t :=
  {| HistoryEntry.type := assistant;
     HistoryEntry.content := JStr (js "Here are some items you might like");
     HistoryEntry.timestamp := t2;
     HistoryEntry.intent := None;
     HistoryEntry.products := Some [dress 1; dress 2];
     HistoryEntry.orders := Some [order 7] |}.

Definition storedQuestion : HistoryEntry.t :=
  {| HistoryEntry.type := user;
     HistoryEntry.content := JStr (js "Show me red dresses");
     HistoryEntry.timestamp := t1;
     HistoryEntry.intent := None;
     HistoryEntry.products := None;
     HistoryEntry.orders := None |}.

Definition historyOf (h : list HistoryEntry.t) (_ : JsString)
  : Settled (list HistoryEntry.t) := Fulfilled h.

(** A state with an established session. *)
Definition inSession : ChatState :=
  {| messages := [userMessage t1 (js "hi"); assistantMessage t2 searchResponse];
     isLoading := false;
     sessionId := Some (js "s-1") |}.

(** ** The shape of the log and of the requests *)

(** A log of complete turns, a ['user'] message then an ['assistant']
    message, followed when [pending] by one more ['user'] message. *)
Fixpoint dialogue (pending : bool) (l : list MessageType) : bool :=
  match l with
  | [] => negb pending
  | user :: l' =>
      match l' with
      | [] => pending
      | assistant :: l'' => dialogue pending l''
      | user :: _ => false
      end
  | assistant :: _ => false
  end.

(** A request carries a message that is not blank, and a session id that
    is [null] or non-empty. *)
Definition requestOk (r : ChatRequest.t) : bool :=
  negb (blank (ChatRequest.message r))
  && match ChatRequest.session_id r with
     | Some s => truthy s
     | None => true
     end.

(** A bubble without product and order cards. *)
Definition cardless (m : ChatMessage.t) : bool :=
  match presentedProducts m, presentedOrders m with
  | [], [] => true
  | _, _ => false
  end.


(** A world with nothing in flight. *)
Definition quiet (st : ChatState) : World :=
  {| hook := st; rendered := st; inFlight := [] |}.

(** While sending only: flag, in-flight request and log shape agree. *)
Inductive Conversing (w : World) : Prop :=
| Settled_turns :
    isLoading (hook w) = false -> inFlight w = [] ->
    dialogue false (map ChatMessage.type (messages (hook w))) = true ->
    Conversing w
| Awaiting_reply request l u :
    isLoading (hook w) = true -> inFlight w = [request] ->
    messages (hook w) = l ++ [u] ->
    dialogue false (map ChatMessage.type l) = true ->
    ChatMessage.type u = user ->
    ChatMessage.content u = JStr (ChatRequest.message request) ->
    Conversing w.

(** ** The chat widget ([ChatWidget.tsx]) *)

Record WidgetState : Type := mkWidgetState {
  isOpen : bool;
  inputMessage : JsString;
  isMinimized : bool
}.

(** [useState] initial values of the widget. *)
Definition initialWidget : WidgetState :=
  {| isOpen := false; inputMessage := []; isMinimized := false |}.

Definition setInputMessage (s : JsString) (ws : WidgetState) : WidgetState :=
  {| isOpen := isOpen ws; inputMessage := s; isMinimized := isMinimized ws |}.

(** [handleSubmit] up to its [await]: its own guard, then the input is
    cleared and [sendMessage] is called with the text as typed.  The
    [isLoading] it reads is the hook's, of the same render. *)
Definition handleSubmit_invoke (now : JsString) (ws : WidgetState)
  (st : ChatState) : WidgetState * (ChatState * option ChatRequest.t) :=
  if negb (truthy (trim (inputMessage ws))) || isLoading st
  then (ws, (st, None))
  else (setInputMessage [] ws, sendMessage_invoke now (inputMessage ws) st).

(** [disabled={isLoading || !inputMessage.trim()}] of the submit button. *)
Definition submitDisabled (ws : WidgetState) (st : ChatState) : bool :=
  isLoading st || negb (truthy (trim (inputMessage ws))).

(** What the widget shows: the launcher button; the header alone when
    minimized; the welcome panel with the quick actions while the log is
    empty; otherwise the bubbles, with the typing indicator while
    loading. *)
Inductive WidgetView : Type :=
| Launcher
| HeaderOnly
| Welcome
| Conversation (bubbles : list ChatMessage.t) (typing : bool).

Definition widgetView (ws : WidgetState) (st : ChatState) : WidgetView :=
  if negb (isOpen ws) then Launcher
  else if isMinimized ws then HeaderOnly
  else if (length (messages st) =? 0)%nat then Welcome
  else Conversation (messages st) (isLoading st).

(** ** [localStorage] and the axios instance ([services/api.ts]) *)

Abbreviation Storage := (gmap JsString JsString).
Abbreviation Headers := (gmap JsString JsString).

Definition getItem (key : JsString) (storage : Storage) : option JsString :=
  storage !! key.

Definition setItem (key value : JsString) (storage : Storage) : Storage :=
  <[key := value]> storage.

Definition removeItem (key : JsString) (storage : Storage) : Storage :=
  delete key storage.

(** The [headers] of [axios.create]. *)
Definition defaultHeaders : Headers :=
  {[ js "Content-Type" := js "application/json" ]}.

(** The request interceptor, on the headers of the request [config]. *)
Definition requestInterceptor (storage : Storage) (headers : Headers)
  : Headers :=
  match getItem (js "token") storage with
  | Some token =>
      if truthy token
      then <[js "Authorization" := js "Bearer " ++ token]> headers
      else headers
  | None => headers
  end.

(** The headers of a request made with [storage]. *)
Definition sentWith (storage : Storage) : Headers :=
  requestInterceptor storage defaultHeaders.

(** What the handlers of this application read of a rejected call:
    [error.response?.status], [error.response?.data?.detail] and
    [error.message]. *)
Module Failure.
(** [detail] is whatever value the response body holds; [message] is the
    message of the [Error] object. *)
Record t : Type := mk {
  status : option Z;
  detail : option Json;
  message : option JsString
}.
End Failure.

(** The rejection handler of the response interceptor: its effect on the
    storage (the error itself is passed on, rejected again). *)
Definition responseRejected (error : Failure.t) (storage : Storage)
  : Storage :=
  match Failure.status error with
  | Some code =>
      if (code =? 401)%Z
      then removeItem (js "user") (removeItem (js "token") storage)
      else storage
  | None => storage
  end.

Inductive Reply (A : Type) : Type :=
| Ok (data : A)
| Err (error : Failure.t).
Arguments Ok {A} data.
Arguments Err {A} error.

(** One call through the axios instance: the request interceptor prepares
    the headers, the server answers, and a rejection passes through the
    response interceptor. *)
Definition call {A : Type} (server : Headers -> Reply A) (storage : Storage)
  : Reply A * Storage :=
  match server (requestInterceptor storage defaultHeaders) with
  | Ok data => (Ok data, storage)
  | Err error => (Err error, responseRejected error storage)
  end.

Module LoginCredentials.
Record t : Type := mk { email : JsString; password : JsString }.
End LoginCredentials.

Module RegisterData.
Record t : Type := mk {
  email : JsString;
  username : JsString;
  password : JsString
}.
End RegisterData.

Module LoginResponse.
Record t : Type := mk { access_token : JsString; token_type : JsString }.
End LoginResponse.

(** The endpoints the application calls, as functions of what is sent. *)
Module Server.
Record t : Type := mk {
  login : LoginCredentials.t -> Headers -> Reply LoginResponse.t;
  register : RegisterData.t -> Headers -> Reply Json;
  getCurrentUser : Headers -> Reply Json;
  getAppInfo : Headers -> Reply Json;
  healthCheck : Headers -> Reply Json
}.
End Server.

(** ** The application shell ([App.tsx]) *)

Module App.

(** [user] is [JNull] for [null]; what the server or [JSON.parse] returns
    is stored as it is. *)
Record State : Type := mkState {
  user : Json;
  isAuthenticated : bool;
  showLoginForm : bool;
  isLoading : bool;
  appInfo : Json;
  healthStatus : Json
}.

Definition initial : State :=
  {| user := JNull; isAuthenticated := false; showLoginForm := false;
     isLoading := false; appInfo := JNull; healthStatus := JNull |}.

Definition setUser (u : Json) (s : State) : State :=
  {| user := u; isAuthenticated := isAuthenticated s;
     showLoginForm := showLoginForm s; isLoading := isLoading s;
     appInfo := appInfo s; healthStatus := healthStatus s |}.

Definition setIsAuthenticated (b : bool) (s : State) : State :=
  {| user := user s; isAuthenticated := b;
     showLoginForm := showLoginForm s; isLoading := isLoading s;
     appInfo := appInfo s; healthStatus := healthStatus s |}.

Definition setShowLoginForm (b : bool) (s : State) : State :=
  {| user := user s; isAuthenticated := isAuthenticated s;
     showLoginForm := b; isLoading := isLoading s;
     appInfo := appInfo s; healthStatus := healthStatus s |}.

Definition setIsLoading (b : bool) (s : State) : State :=
  {| user := user s; isAuthenticated := isAuthenticated s;
     showLoginForm := showLoginForm s; isLoading := b;
     appInfo := appInfo s; healthStatus := healthStatus s |}.

Definition setAppInfo (i : Json) (s : State) : State :=
  {| user := user s; isAuthenticated := isAuthenticated s;
     showLoginForm := showLoginForm s; isLoading := isLoading s;
     appInfo := i; healthStatus := healthStatus s |}.

Definition setHealthStatus (h : Json) (s : State) : State :=
  {| user := user s; isAuthenticated := isAuthenticated s;
     showLoginForm := showLoginForm s; isLoading := isLoading s;
     appInfo := appInfo s; healthStatus := h |}.

Section Handlers.

(** [JSON.stringify], and [JSON.parse] with [None] for a thrown
    [SyntaxError]. *)
Variable JSON_stringify : Json -> JsString.
Variable JSON_parse : JsString -> option Json.
Variable server : Server.t.

(** A handler's end: the state, the storage, and the error it throws. *)
Definition Outcome : Type := State * Storage * option Failure.t.

Definition handleLogin (credentials : LoginCredentials.t)
  (s : State) (storage : Storage) : Outcome :=
  let s1 := setIsLoading true s in
  match call (Server.login server credentials) storage with
  | (Err error, storage1) => (setIsLoading false s1, storage1, Some error)
  | (Ok response, storage1) =>
      let storage2 :=
        setItem (js "token") (LoginResponse.access_token response) storage1 in
      match call (Server.getCurrentUser server) storage2 with
      | (Err error, storage3) =>
          (setIsLoading false s1, storage3, Some error)
      | (Ok currentUser, storage3) =>
          (setIsLoading false
             (setIsAuthenticated true (setUser currentUser s1)),
           setItem (js "user") (JSON_stringify currentUser) storage3,
           None)
      end
  end.

Definition handleRegister (userData : RegisterData.t)
  (s : State) (storage : Storage) : Outcome :=
  let s1 := setIsLoading true s in
  match call (Server.register server userData) storage with
  | (Err error, storage1) => (setIsLoading false s1, storage1, Some error)
  | (Ok _, storage1) =>
      let '(s2, storage2, thrown) :=
        handleLogin
          {| LoginCredentials.email := RegisterData.email userData;
             LoginCredentials.password := RegisterData.password userData |}
          s1 storage1 in
      (setIsLoading false s2, storage2, thrown)
  end.

Definition handleLogout (s : State) (storage : Storage) : State * Storage :=
  (setIsAuthenticated false (setUser JNull s),
   removeItem (js "user") (removeItem (js "token") storage)).

(** The effect run once on mount. *)
Definition initializeApp (s : State) (storage : Storage) : State * Storage :=
  let '(info, storage1) := call (Server.getAppInfo server) storage in
  let s1 := match info with
            | Ok i => setAppInfo i s
            | Err _ => s
            end in
  let '(health, storage2) := call (Server.healthCheck server) storage1 in
  let s2 := match health with
            | Ok h => setHealthStatus h s1
            | Err _ => s1
            end in
  match getItem (js "token") storage2, getItem (js "user") storage2 with
  | Some token, Some userData =>
      if truthy token && truthy userData then
        match JSON_parse userData with
        | Some parsedUser =>
            let s3 := setIsAuthenticated true (setUser parsedUser s2) in
            match call (Server.getCurrentUser server) storage2 with
            | (Ok currentUser, storage3) => (setUser currentUser s3, storage3)
            | (Err _, storage3) =>
                (s3, removeItem (js "user")
                       (removeItem (js "token") storage3))
            end
        | None =>
            (s2, removeItem (js "user") (removeItem (js "token") storage2))
        end
      else (s2, storage2)
  | _, _ => (s2, storage2)
  end.

End Handlers.

End App.

(** ** The login form ([components/LoginForm.tsx]) *)

(** [a || b] on two values that may be [undefined]. *)
Definition js_or_opt (a b : option Json) : option Json :=
  if truthy_any a then a else b.

Module LoginForm.

Record FormData : Type := mkFormData {
  email : JsString;
  username : JsString;
  password : JsString
}.

Record State : Type := mkState {
  isLoginMode : bool;
  formData : FormData;
  errors : Json
}.

Definition initial : State :=
  {| isLoginMode := true;
     formData := {| email := []; username := []; password := [] |};
     errors := JStr [] |}.

Definition setErrors (e : Json) (s : State) : State :=
  {| isLoginMode := isLoginMode s; formData := formData s; errors := e |}.

(** The [name] attribute of the three inputs wired to [handleChange]. *)
Inductive InputName : Type := emailInput | usernameInput | passwordInput.

(** [setFormData(prev => ({...prev, [e.target.name]: e.target.value}))] *)
Definition handleChange (name : InputName) (value : JsString) (s : State)
  : State :=
  let prev := formData s in
  {| isLoginMode := isLoginMode s;
     formData :=
       match name with
       | emailInput =>
           {| email := value; username := username prev;
              password := password prev |}
       | usernameInput =>
           {| email := email prev; username := value;
              password := password prev |}
       | passwordInput =>
           {| email := email prev; username := username prev;
              password := value |}
       end;
     errors := errors s |}.

Section Submit.

Variable JSON_stringify : Json -> JsString.
Variable server : Server.t.

(** [handleSubmit], with [onLogin], [onRegister] and [onClose] as [App]
    passes them. *)
Definition handleSubmit (s : State) (app : App.State) (storage : Storage)
  : State * App.State * Storage :=
  let s1 := setErrors (JStr []) s in
  let '(app1, storage1, thrown) :=
    if isLoginMode s then
      App.handleLogin JSON_stringify server
        {| LoginCredentials.email := email (formData s);
           LoginCredentials.password := password (formData s) |}
        app storage
    else
      App.handleRegister JSON_stringify server
        {| RegisterData.email := email (formData s);
           RegisterData.username := username (formData s);
           RegisterData.password := password (formData s) |}
        app storage in
  match thrown with
  | None => (s1, App.setShowLoginForm false app1, storage1)
  | Some error =>
      (setErrors
         (js_or (js_or_opt (Failure.detail error)
                   (JStr <$> Failure.message error))
            (JStr (js "An error occurred"))) s1,
       app1, storage1)
  end.

End Submit.

End LoginForm.

(** ** Sample servers *)

Definition demoUser : Json :=
  JObj [(js "id", JNum 1); (js "username", JStr (js "demo"))].

Definition unauthorized : Failure.t :=
  {| Failure.status := Some 401%Z;
     Failure.detail := Some (JStr (js "Incorrect email or password"));
     Failure.message := Some (js "Request failed with status code 401") |}.

Definition unavailable : Failure.t :=
  {| Failure.status := Some 503%Z;
     Failure.detail := None;
     Failure.message := Some (js "Request failed with status code 503") |}.

(** Accepts every login and registration; [/auth/me] wants a bearer. *)
Definition demoServer : Server.t :=
  {| Server.login := fun _ _ =>
       Ok {| LoginResponse.access_token := js "abc";
             LoginResponse.token_type := js "bearer" |};
     Server.register := fun _ _ => Ok demoUser;
     Server.getCurrentUser := fun headers =>
       match headers !! js "Authorization" with
       | Some _ => Ok demoUser
       | None => Err unauthorized
       end;
     Server.getAppInfo := fun _ => Ok JNull;
     Server.healthCheck := fun _ => Ok JNull |}.

(** Rejects every login; [/auth/me] is out of service. *)
Definition strictServer : Server.t :=
  {| Server.login := fun _ _ => Err unauthorized;
     Server.register := fun _ _ => Err unavailable;
     Server.getCurrentUser := fun _ => Err unavailable;
     Server.getAppInfo := fun _ => Ok JNull;
     Server.healthCheck := fun _ => Err unavailable |}.

(** Accepts the login, then fails to return the user. *)
Definition flakyServer : Server.t :=
  {| Server.login := Server.login demoServer;
     Server.register := Server.register demoServer;
     Server.getCurrentUser := fun _ => Err unavailable;
     Server.getAppInfo := fun _ => Ok JNull;
     Server.healthCheck := fun _ => Ok JNull |}.

Definition demoStringify (_ : Json) : JsString := js "{...}".

Definition demoParse (s : JsString) : option Json :=
  if truthy s then Some demoUser else None.

Definition demoCredentials : LoginCredentials.t :=
  {| LoginCredentials.email := js "demo@fashionstore.com";
     LoginCredentials.password := js "demo123" |}.

Definition demoRegistration : RegisterData.t :=
  {| RegisterData.email := js "demo@fashionstore.com";
     RegisterData.username := js "demo";
     RegisterData.password := js "demo123" |}.

(** A storage left by an earlier session, with a key of another feature. *)
Definition savedSession : Storage :=
  {[ js "token" := js "old"; js "user" := js "{...}";
     js "theme" := js "dark" ]}.

(** * Basic facts *)

Section Strings.

Lemma truthy_true (s : JsString) : truthy s = true <-> s ≠ [].
Proof. destruct s; simpl; split; congruence. Qed.

Lemma truthy_false (s : JsString) : truthy s = false <-> s = [].
Proof. destruct s; simpl; split; congruence. Qed.



Lemma trimStart_head (s : JsString) c t :
  trimStart s = c :: t -> is_white_space c = false.
Proof.
  induction s as [|x s IH]; simpl; [discriminate|].
  destruct (is_white_space x) eqn:Hx; [exact IH|].
  intros [= <- _]. exact Hx.
Qed.

Lemma trimEnd_head (s : JsString) c t :
  trimEnd s = c :: t -> exists t', s = c :: t'.
Proof.
  destruct s as [|x s]; simpl; [discriminate|].
  destruct (trimEnd s); [destruct (is_white_space x)|];
    intros [= <- _]; eauto.
Qed.

(** A trimmed string starts with a character that is not white space. *)
Lemma trim_head (s : JsString) c t :
  trim s = c :: t -> is_white_space c = false.
Proof.
  unfold trim. intros H.
  destruct (trimEnd_head _ _ _ H) as [t' Ht'].
  exact (trimStart_head _ _ _ Ht').
Qed.

(** A non-empty trimmed string is not blank. *)
Lemma trim_not_blank (s : JsString) : trim s ≠ [] -> blank (trim s) = false.
Proof.
  destruct (trim s) as [|c t] eqn:E; [congruence|].
  intros _. simpl. by rewrite (trim_head _ _ _ E).
Qed.

(** White space only trims to the empty string. *)
Lemma trimStart_blank (s : JsString) : blank s = true -> trimStart s = [].
Proof.
  induction s as [|c s IH]; simpl; [done|].
  destruct (is_white_space c); simpl; [exact IH | discriminate].
Qed.

Lemma trim_blank (s : JsString) : blank s = true -> trim s = [].
Proof. intros H. unfold trim. by rewrite trimStart_blank. Qed.

Example trim_inner_space_kept :
  trim (js "  Show me  red dresses ") = js "Show me  red dresses".
Proof. reflexivity. Qed.

Example trim_line_terminators : trim [0x0A; 0x61; 0x0D; 0x2028] = [0x61].
Proof. reflexivity. Qed.

Example trim_all_blank : trim (js "   ") = [].
Proof. reflexivity. Qed.

Lemma apology_truthy : truthy apology = true.
Proof. reflexivity. Qed.

End Strings.

(** * The guard of [sendMessage] *)

Section Guard.

Variables (now message : JsString) (st : ChatState).

(** The guard lets the call through: user message, flag, request. *)
Lemma sendMessage_invoke_pass :
  trim message ≠ [] -> isLoading st = false ->
  sendMessage_invoke now message st =
    (setIsLoading true (setMessages (append (userMessage now message)) st),
     Some {| ChatRequest.message := trim message;
             ChatRequest.session_id := sessionId st |}).
Proof.
  intros Ht Hl. unfold sendMessage_invoke.
  apply truthy_true in Ht. by rewrite Ht, Hl.
Qed.

Lemma sendMessage_invoke_empty :
  trim message = [] -> sendMessage_invoke now message st = (st, None).
Proof. intros Ht. unfold sendMessage_invoke. by rewrite Ht. Qed.

Lemma sendMessage_invoke_loading :
  isLoading st = true -> sendMessage_invoke now message st = (st, None).
Proof.
  intros Hl. unfold sendMessage_invoke. rewrite Hl.
  by rewrite orb_true_r.
Qed.

(** Either nothing happens, or the guard passed. *)
Lemma sendMessage_invoke_cases :
  sendMessage_invoke now message st = (st, None)
  \/ (trim message ≠ [] /\ isLoading st = false).
Proof.
  destruct (trim message) as [|c t] eqn:Ht.
  - left. by apply sendMessage_invoke_empty.
  - destruct (isLoading st) eqn:Hl.
    + left. by apply sendMessage_invoke_loading.
    + right. split; congruence.
Qed.

End Guard.

Lemma messages_resume now captured result st :
  messages (sendMessage_resume now captured result st)
  = messages st ++ [replyMessage now result].
Proof.
  destruct result as [response|error]; simpl; [|done].
  by destruct (negb (truthy_opt captured)
               && truthy (ChatResponse.session_id response)).
Qed.

Lemma isLoading_resume now captured result st :
  isLoading (sendMessage_resume now captured result st) = false.
Proof. done. Qed.

(** A whole call that passes the guard. *)
Lemma sendMessage_pass now1 now2 api message st :
  trim message ≠ [] -> isLoading st = false ->
  sendMessage now1 now2 api message st =
    sendMessage_resume now2 (sessionId st)
      (api {| ChatRequest.message := trim message;
              ChatRequest.session_id := sessionId st |})
      (setIsLoading true (setMessages (append (userMessage now1 message)) st)).
Proof.
  intros Ht Hl. unfold sendMessage.
  by rewrite sendMessage_invoke_pass.
Qed.

Lemma replyMessage_type now result :
  ChatMessage.type (replyMessage now result) = assistant.
Proof. by destruct result. Qed.

(** The log after a whole call that passes the guard. *)
Lemma messages_sendMessage_pass
  now1 now2 api (message : JsString) st :
  trim message ≠ [] -> isLoading st = false ->
  messages (sendMessage now1 now2 api message st)
    = messages st
      ++ [userMessage now1 message;
          replyMessage now2
            (api {| ChatRequest.message := trim message;
                    ChatRequest.session_id := sessionId st |})].
Proof.
  intros Ht Hl. rewrite sendMessage_pass by done.
  rewrite messages_resume. simpl. unfold append.
  by rewrite <- app_assoc.
Qed.

(** What a whole call does to the log: nothing, or user message and reply. *)
Lemma sendMessage_cases now1 now2 api (message : JsString) st :
  sendMessage now1 now2 api message st = st
  \/ (trim message ≠ [] /\ isLoading st = false
      /\ messages (sendMessage now1 now2 api message st)
         = messages st
           ++ [userMessage now1 message;
               replyMessage now2
                 (api {| ChatRequest.message := trim message;
                         ChatRequest.session_id := sessionId st |})]).
Proof.
  destruct (sendMessage_invoke_cases now1 message st) as [H|[Ht Hl]].
  - left. unfold sendMessage. by rewrite H.
  - right. split; [done|]. split; [done|].
    by apply messages_sendMessage_pass.
Qed.

Lemma forallb_snoc2 {A} (p : A -> bool) (l : list A) (x y : A) :
  forallb p (l ++ [x; y]) = forallb p l && (p x && p y).
Proof. rewrite forallb_app. simpl. by rewrite andb_true_r. Qed.

(** * The claims *)

(** C1 fails as stated: nothing cancels the request, and nothing keeps
    [clearChat] from running during the [await]; when the chat is cleared
    meanwhile, the log after the call is the reply alone, not the old log
    with two messages appended. *)
Lemma cleared_call_leaves_reply_alone :
  let message := js "Show me red dresses" in
  let w := run [Send t1 message; Render; Clear; Render;
                Settle t2 0 (Fulfilled searchResponse)] (quiet inSession) in
  trim message ≠ []
  /\ isLoading inSession = false
  /\ inFlight (quiet inSession) = []
  /\ messages (hook w) = [assistantMessage t2 searchResponse]
  /\ messages (hook w)
     ≠ messages inSession
       ++ [userMessage t1 message; assistantMessage t2 searchResponse].
Proof.
  intros message w.
  split; [done|]. split; [done|]. split; [done|]. split; [reflexivity|].
  intros H. vm_compute in H. discriminate.
Qed.

(** C1, amended. A call of [sendMessage] with a message whose trimmed
    content is non-empty, made through a callback whose [isLoading] is
    false, appends exactly one ['user'] message carrying the trimmed content
    to the log as it is at the call; when the request settles, the
    continuation appends exactly one ['assistant'] message, built from the
    response or by the error handler, to the log as it is then, whatever
    happened to it meanwhile.  When nothing else touches the log during the
    [await], the log after the call is the old log with exactly these two
    messages appended. *)
Theorem sendMessage_appends_user_then_assistant
  closure now1 now2 api (message : JsString) st captured result later :
  trim message ≠ [] -> isLoading closure = false ->
  let asked := ChatMessage.mk user (JStr (trim message)) now1 None None None in
  let reply r :=
    match r with
    | Fulfilled response =>
        ChatMessage.mk assistant (JStr (ChatResponse.response response)) now2
          (Some (ChatResponse.intent response))
          (ChatResponse.products response) (ChatResponse.orders response)
    | Rejected error =>
        ChatMessage.mk assistant (js_or (error_detail error) (JStr apology))
          now2 (Some (js "error")) None None
    end in
  (sendMessage_call closure now1 message st).2
  = Some {| ChatRequest.message := trim message;
            ChatRequest.session_id := sessionId closure |}
  /\ messages (sendMessage_call closure now1 message st).1
     = messages st ++ [asked]
  /\ messages (sendMessage_resume now2 captured result later)
     = messages later ++ [reply result]
  /\ (isLoading st = false ->
      messages (sendMessage now1 now2 api message st)
      = messages st
        ++ [asked;
            reply (api {| ChatRequest.message := trim message;
                          ChatRequest.session_id := sessionId st |})]).
Proof.
  intros Ht Hl asked reply.
  unfold sendMessage_call. rewrite Hl.
  rewrite (proj2 (truthy_true _) Ht). cbn [negb orb fst snd].
  split; [done|]. split; [done|]. split.
  - rewrite messages_resume. by destruct result.
  - intros Hst. rewrite messages_sendMessage_pass by done.
    by destruct (api _).
Qed.

Lemma sendMessage_appends_user_then_assistant_witness :
  trim (js "  Show me red dresses ") ≠ []
  /\ isLoading inSession = false
  /\ messages (sendMessage t1 t2 apiDown (js "  Show me red dresses ") inSession)
     = messages inSession
       ++ [ChatMessage.mk user (JStr (js "Show me red dresses")) t1
             None None None;
           ChatMessage.mk assistant (JStr apology) t2
             (Some (js "error")) None None].
Proof.
  split; [done|]. split; [done|].
  apply (sendMessage_appends_user_then_assistant
           inSession t1 t2 apiDown (js "  Show me red dresses ") inSession
           None (Rejected networkError) inSession); done.
Defined.




(** C3. A bubble presents at most 3 products and at most 2 orders, however
    many the message carries: of a products list of length n exactly the
    first min(n, 3) elements, in order, and of an orders list of length m
    exactly the first min(m, 2) elements, in order. *)
Theorem presented_attachments_bounded (message : ChatMessage.t) :
  (length (presentedProducts message) ≤ 3)%nat
  /\ (length (presentedOrders message) ≤ 2)%nat
  /\ presentedProducts message
     = match ChatMessage.products message with
       | Some products => take (length products `min` 3) products
       | None => []
       end
  /\ presentedOrders message
     = match ChatMessage.orders message with
       | Some orders => take (length orders `min` 2) orders
       | None => []
       end.
Proof.
  unfold presentedProducts, presentedOrders.
  destruct (ChatMessage.products message) as [ps|],
           (ChatMessage.orders message) as [os|]; simpl.
  all: repeat match goal with
         | |- context [(0 <? length ?l)%nat] =>
             destruct l as [|? [|? [|? [|? ?]]]]; simpl
         end.
  all: repeat split; try done; try lia.
  all: rewrite ?length_take; simpl; try lia.
Qed.

(** The search scenario: five product references, three cards. *)
Example presented_of_search_response :
  presentedProducts (assistantMessage t2 searchResponse)
  = [dress 1; dress 2; dress 3]
  /\ presentedOrders (assistantMessage t2 searchResponse) = [].
Proof. split; reflexivity. Qed.

(** C4 fails as stated: the assistant message copies both attachment
    fields of the response, and a response may fill both. *)
Lemma mixed_response_carries_both :
  forallb mutuallyExclusive
    (messages (sendMessage t1 t2 (apiReturning mixedResponse)
                 (js "Where is my order?") initialState)) = false.
Proof. vm_compute. reflexivity. Qed.


(** C4, amended. The assistant message built from a chat response carries
    exactly the response's products and orders, and the error handler's
    message carries neither; so after a call that passes the guard every
    message of the log is mutually exclusive exactly when every older
    message is and the response, if there is one, is. *)
Theorem sendMessage_exclusive_as_response
  now1 now2 api (message : JsString) st :
  trim message ≠ [] -> isLoading st = false ->
  let result := api {| ChatRequest.message := trim message;
                       ChatRequest.session_id := sessionId st |} in
  forallb mutuallyExclusive (messages (sendMessage now1 now2 api message st))
    = forallb mutuallyExclusive (messages st)
      && match result with
         | Fulfilled response => responseExclusive response
         | Rejected _ => true
         end
  /\ match result with
     | Fulfilled response =>
         ChatMessage.products (replyMessage now2 result)
           = ChatResponse.products response
         /\ ChatMessage.orders (replyMessage now2 result)
            = ChatResponse.orders response
     | Rejected _ =>
         ChatMessage.products (replyMessage now2 result) = None
         /\ ChatMessage.orders (replyMessage now2 result) = None
     end.
Proof.
  intros Ht Hl result. split.
  - rewrite messages_sendMessage_pass by done.
    rewrite forallb_snoc2. fold result. by destruct result.
  - by destruct result.
Qed.

Lemma sendMessage_exclusive_as_response_witness :
  trim (js "Show me red dresses") ≠ []
  /\ isLoading initialState = false
  /\ forallb mutuallyExclusive
       (messages (sendMessage t1 t2 (apiReturning searchResponse)
                    (js "Show me red dresses") initialState)) = true.
Proof.
  split; [done|]. split; [done|].
  by rewrite (proj1 (sendMessage_exclusive_as_response
                       t1 t2 (apiReturning searchResponse)
                       (js "Show me red dresses") initialState
                       ltac:(done) ltac:(done))).
Defined.

(** C5 fails as stated: [sendMessage] stores whatever intent string the
    response carries, and [loadChatHistory] whatever the stored entry has,
    which may be nothing. *)
Lemma intent_outside_enumeration :
  forallb intentValid
    (messages (sendMessage t1 t2 (apiReturning greetingResponse)
                 (js "hi") initialState)) = false
  /\ forallb intentValid
       (messages (loadChatHistory (historyOf [storedQuestion; storedReply])
                    inSession)) = false.
Proof. split; vm_compute; reflexivity. Qed.

Lemma formatMessage_intentValid (e : HistoryEntry.t) :
  intentValid (formatMessage e) = entryIntentValid e.
Proof. done. Qed.

Lemma restored_intentValid (history : list HistoryEntry.t) :
  forallb intentValid (map formatMessage history)
  = forallb entryIntentValid history.
Proof.
  induction history as [|e h IH]; simpl; [done|].
  by rewrite IH, formatMessage_intentValid.
Qed.

Lemma loadChatHistory_cases api st :
  loadChatHistory api st = st
  \/ exists sid history,
       sessionId st = Some sid /\ api sid = Fulfilled history
       /\ loadChatHistory api st
          = setMessages (fun _ => map formatMessage history) st.
Proof.
  unfold loadChatHistory, loadChatHistory_invoke.
  destruct (negb (truthy_opt (sessionId st))); [by left|].
  destruct (sessionId st) as [sid|] eqn:Hs; [|by left].
  destruct (api sid) as [history|error] eqn:Hapi; [|by left].
  right. exists sid, history. by rewrite Hapi.
Qed.

(** C5, amended. An assistant message appended by [sendMessage] always has
    its intent present: the response's intent string, copied unchanged, or
    ['error'] from the error handler; a message restored by
    [loadChatHistory] has the stored entry's intent, present or not.  So
    when every response carries one of the four values and every stored
    assistant entry does, every assistant message of the log does too. *)
Theorem intents_valid_when_server_is
  now1 now2 api hapi (message : JsString) st :
  (forall request response,
     api request = Fulfilled response ->
     isIntent (ChatResponse.intent response) = true) ->
  (forall sid history,
     hapi sid = Fulfilled history ->
     forallb entryIntentValid history = true) ->
  forallb intentValid (messages st) = true ->
  forallb intentValid (messages (sendMessage now1 now2 api message st)) = true
  /\ forallb intentValid (messages (loadChatHistory hapi st)) = true
  /\ (forall result,
        ChatMessage.intent (replyMessage now2 result)
        = Some match result with
               | Fulfilled response => ChatResponse.intent response
               | Rejected _ => js "error"
               end)
  /\ (forall entry,
        ChatMessage.intent (formatMessage entry) = HistoryEntry.intent entry).
Proof.
  intros Hapi Hhapi Hst. repeat split.
  - destruct (sendMessage_cases now1 now2 api message st)
      as [->|(_ & _ & ->)]; [done|].
    rewrite forallb_snoc2, Hst. simpl.
    destruct (api _) as [response|error] eqn:E; [|done].
    exact (Hapi _ _ E).
  - destruct (loadChatHistory_cases hapi st)
      as [->|(sid & history & _ & E & ->)]; [done|].
    simpl. rewrite restored_intentValid. exact (Hhapi _ _ E).
  - by intros [response|error].
Qed.

Lemma intents_valid_when_server_is_witness :
  forallb intentValid (messages inSession) = true
  /\ forallb intentValid
       (messages (sendMessage t1 t2 (apiReturning searchResponse)
                    (js "more dresses") inSession)) = true
  /\ forallb intentValid
       (messages (loadChatHistory (historyOf [storedQuestion]) inSession))
     = true.
Proof.
  split; [done|].
  destruct (intents_valid_when_server_is
              t1 t2 (apiReturning searchResponse) (historyOf [storedQuestion])
              (js "more dresses") inSession) as (H1 & H2 & _).
  - intros request response [= <-]. reflexivity.
  - intros sid history [= <-]. reflexivity.
  - reflexivity.
  - split; assumption.
Defined.

(** * Runs of the hook *)

Section Calls.

Variables (closure : ChatState) (now message : JsString) (st : ChatState).

Lemma sendMessage_call_self :
  sendMessage_call st now message st = sendMessage_invoke now message st.
Proof. reflexivity. Qed.

Lemma sendMessage_call_loading :
  isLoading closure = true ->
  sendMessage_call closure now message st = (st, None).
Proof.
  intros Hl. unfold sendMessage_call. rewrite Hl. by rewrite orb_true_r.
Qed.

Lemma sendMessage_call_pass :
  trim message ≠ [] -> isLoading closure = false ->
  sendMessage_call closure now message st =
    (setIsLoading true (setMessages (append (userMessage now message)) st),
     Some {| ChatRequest.message := trim message;
             ChatRequest.session_id := sessionId closure |}).
Proof.
  intros Ht Hl. unfold sendMessage_call.
  apply truthy_true in Ht. by rewrite Ht, Hl.
Qed.

Lemma sendMessage_call_cases :
  sendMessage_call closure now message st = (st, None)
  \/ (trim message ≠ [] /\ isLoading closure = false).
Proof.
  destruct (trim message) as [|c t] eqn:Ht.
  - left. unfold sendMessage_call. by rewrite Ht.
  - destruct (isLoading closure) eqn:Hl.
    + left. by apply sendMessage_call_loading.
    + right. split; congruence.
Qed.

End Calls.

Lemma inSync_true w :
  inSync w = true ->
  isLoading (rendered w) = isLoading (hook w)
  /\ sessionId (rendered w) = sessionId (hook w).
Proof.
  unfold inSync. intros [H1 H2]%andb_true_iff.
  by apply bool_decide_eq_true in H1, H2.
Qed.

Lemma sessionId_resume now captured result st :
  sessionId (sendMessage_resume now captured result st)
  = match result with
    | Fulfilled response =>
        if negb (truthy_opt captured)
           && truthy (ChatResponse.session_id response)
        then Some (ChatResponse.session_id response)
        else sessionId st
    | Rejected _ => sessionId st
    end.
Proof.
  destruct result as [response|error]; simpl; [|done].
  by destruct (negb (truthy_opt captured)
               && truthy (ChatResponse.session_id response)).
Qed.


(** Every operation keeps the session id [null] or non-empty. *)
Lemma sendMessage_resume_sessionWf now captured result st :
  sessionWf st = true ->
  sessionWf (sendMessage_resume now captured result st) = true.
Proof.
  unfold sessionWf. rewrite sessionId_resume.
  destruct result as [response|error]; [|done].
  destruct (negb (truthy_opt captured)) ; simpl; [|done].
  by destruct (truthy (ChatResponse.session_id response)) eqn:E.
Qed.

Lemma step_sessionWf e w :
  sessionWf (hook w) = true -> sessionWf (hook (step e w)) = true.
Proof.
  intros Hw. destruct e as [now message|now i result|result| |]; simpl.
  - destruct (sendMessage_call_cases (rendered w) now message (hook w))
      as [E|[Ht Hl]].
    + by rewrite E.
    + by rewrite sendMessage_call_pass.
  - destruct (inFlight w !! i); [|done].
    by apply sendMessage_resume_sessionWf.
  - by destruct result.
  - done.
  - done.
Qed.

(** In every state the hook can reach the session id is well formed. *)
Lemma run_sessionWf es w :
  sessionWf (hook w) = true -> sessionWf (hook (run es w)) = true.
Proof.
  revert w. induction es as [|e es IH]; intros w Hw; simpl; [done|].
  by apply IH, step_sessionWf.
Qed.



(** The oldest pending request settles. *)
Lemma step_Settle_head now result request rest w :
  inFlight w = request :: rest ->
  step (Settle now 0 result) w
  = {| hook := sendMessage_resume now (ChatRequest.session_id request)
                 result (hook w);
       rendered := rendered w;
       inFlight := rest |}.
Proof. intros H. unfold step. by rewrite H. Qed.

(** No pending request at that index: nothing happens. *)
Lemma step_Settle_none now i result w :
  inFlight w !! i = None -> step (Settle now i result) w = w.
Proof. intros H. unfold step. by rewrite H. Qed.










(** * The session id *)




(** * The log is append-only under [sendMessage] *)

Lemma sendMessage_invoke_prefix now (message : JsString) st :
  messages st `prefix_of` messages (sendMessage_invoke now message st).1.
Proof.
  destruct (sendMessage_invoke_cases now message st) as [E|[Ht Hl]].
  - by rewrite E.
  - rewrite sendMessage_invoke_pass by done. simpl.
    by apply prefix_app_r.
Qed.

Lemma sendMessage_resume_prefix now captured result st :
  messages st `prefix_of` messages (sendMessage_resume now captured result st).
Proof. rewrite messages_resume. by apply prefix_app_r. Qed.

Lemma sendMessage_call_prefix closure now (message : JsString) st :
  messages st `prefix_of` messages (sendMessage_call closure now message st).1.
Proof.
  destruct (sendMessage_call_cases closure now message st) as [E|[Ht Hl]].
  - by rewrite E.
  - rewrite sendMessage_call_pass by done. simpl.
    by apply prefix_app_r.
Qed.

Lemma step_sending_prefix e w :
  isSending e = true ->
  messages (hook w) `prefix_of` messages (hook (step e w)).
Proof.
  destruct e as [now message|now i result|result| |]; try discriminate;
    intros _; simpl.
  - pose proof (sendMessage_call_prefix (rendered w) now message (hook w))
      as H.
    by destruct (sendMessage_call (rendered w) now message (hook w))
      as [st [r|]].
  - destruct (inFlight w !! i); [|done].
    apply sendMessage_resume_prefix.
  - done.
Qed.

(** However calls and settlements interleave, the log only grows at its
    end. *)
Lemma run_sending_prefix es w :
  forallb isSending es = true ->
  messages (hook w) `prefix_of` messages (hook (run es w)).
Proof.
  revert w. induction es as [|e es IH]; intros w Hes; simpl in *; [done|].
  apply andb_true_iff in Hes as [He Hes].
  etrans; [by apply step_sending_prefix|by apply IH].
Qed.

(** C8. Every [sendMessage] invocation keeps the existing log as an
    unchanged prefix: the whole call, and each of its two halves whatever
    the state it runs in, only appends at the end, so older messages are
    neither reordered, removed nor changed. *)
Theorem sendMessage_log_prefix
  now1 now2 api (message : JsString) st captured result :
  messages st `prefix_of` messages (sendMessage now1 now2 api message st)
  /\ messages st `prefix_of` messages (sendMessage_invoke now1 message st).1
  /\ messages st
     `prefix_of` messages (sendMessage_resume now2 captured result st).
Proof.
  split; [|split].
  - destruct (sendMessage_cases now1 now2 api message st)
      as [->|(_ & _ & ->)]; [done|].
    by apply prefix_app_r.
  - apply sendMessage_invoke_prefix.
  - apply sendMessage_resume_prefix.
Qed.

(** * User messages *)

Lemma userMessage_contentOk now (message : JsString) :
  trim message ≠ [] -> userContentOk (userMessage now message) = true.
Proof.
  intros Ht. unfold userContentOk. simpl.
  rewrite (trim_not_blank _ Ht). apply truthy_true in Ht. by rewrite Ht.
Qed.

Lemma replyMessage_contentOk now result :
  userContentOk (replyMessage now result) = true.
Proof. by destruct result. Qed.

(** C9. Every ['user'] message that [sendMessage] appends has non-empty
    content: when the input trims to the empty string (it is empty or all
    white space) the call returns without issuing an API call and without
    appending anything, so no blank user message enters the log. *)
Theorem sendMessage_user_content_nonempty
  now1 now2 api (message : JsString) st :
  (trim message = [] ->
   sendMessage_invoke now1 message st = (st, None)
   /\ sendMessage now1 now2 api message st = st)
  /\ (blank message = true -> trim message = [])
  /\ exists added,
       messages (sendMessage now1 now2 api message st) = messages st ++ added
       /\ forallb userContentOk added = true.
Proof.
  split; [|split].
  - intros Ht. split; [by apply sendMessage_invoke_empty|].
    unfold sendMessage. by rewrite sendMessage_invoke_empty.
  - apply trim_blank.
  - destruct (sendMessage_cases now1 now2 api message st)
      as [->|(Ht & _ & ->)].
    + exists []. by rewrite app_nil_r.
    + eexists. split; [done|]. simpl.
      by rewrite userMessage_contentOk, replyMessage_contentOk.
Qed.

Lemma sendMessage_user_content_nonempty_witness :
  let blanks := [0x20; 0x09; 0xA0; 0x3000] in
  trim blanks = []
  /\ sendMessage_invoke t1 blanks inSession = (inSession, None)
  /\ sendMessage t1 t2 (apiReturning searchResponse) blanks inSession
     = inSession.
Proof.
  intros blanks. split; [done|].
  apply (proj1 (sendMessage_user_content_nonempty
                  t1 t2 (apiReturning searchResponse) blanks inSession)).
  reflexivity.
Defined.

(** * Restoring the history *)

Lemma formatMessage_bare (history : list HistoryEntry.t) :
  forallb bare (map formatMessage history) = true.
Proof. induction history as [|e h IH]; simpl; done. Qed.

(** C10. [loadChatHistory] restores only [type], [content], [timestamp]
    and [intent] of each stored message: whatever products or orders the
    server-side history holds, every restored message has neither; and when
    [sessionId] is null the call returns without changing the log (or
    anything else). *)
Theorem loadChatHistory_restores_four_fields api st :
  (sessionId st = None -> loadChatHistory api st = st)
  /\ (forall sid history,
        sessionId st = Some sid -> sid ≠ [] ->
        api sid = Fulfilled history ->
        messages (loadChatHistory api st) = map formatMessage history
        /\ forallb bare (messages (loadChatHistory api st)) = true)
  /\ (forall entry,
        ChatMessage.type (formatMessage entry) = HistoryEntry.type entry
        /\ ChatMessage.content (formatMessage entry)
           = HistoryEntry.content entry
        /\ ChatMessage.timestamp (formatMessage entry)
           = HistoryEntry.timestamp entry
        /\ ChatMessage.intent (formatMessage entry)
           = HistoryEntry.intent entry
        /\ ChatMessage.products (formatMessage entry) = None
        /\ ChatMessage.orders (formatMessage entry) = None).
Proof.
  split; [|split].
  - intros Hs. unfold loadChatHistory, loadChatHistory_invoke.
    by rewrite Hs.
  - intros sid history Hs Hsid Hapi.
    unfold loadChatHistory, loadChatHistory_invoke.
    apply truthy_true in Hsid. rewrite Hs. simpl. rewrite Hsid. simpl.
    rewrite Hapi. simpl. split; [done|]. apply formatMessage_bare.
  - done.
Qed.

Lemma loadChatHistory_restores_four_fields_witness :
  sessionId initialState = None
  /\ loadChatHistory (historyOf [storedQuestion; storedReply]) initialState
     = initialState
  /\ sessionId inSession = Some (js "s-1")
  /\ messages (loadChatHistory (historyOf [storedQuestion; storedReply])
                 inSession)
     = [formatMessage storedQuestion; formatMessage storedReply]
  /\ forallb bare
       (messages (loadChatHistory (historyOf [storedQuestion; storedReply])
                    inSession)) = true.
Proof.
  split; [done|]. split.
  - by apply (proj1 (loadChatHistory_restores_four_fields
                       (historyOf [storedQuestion; storedReply])
                       initialState)).
  - split; [done|].
    refine (proj1 (proj2 (loadChatHistory_restores_four_fields
                            (historyOf [storedQuestion; storedReply])
                            inSession))
              (js "s-1") [storedQuestion; storedReply] eq_refl _ eq_refl).
    discriminate.
Defined.

(** * Further properties of the hook *)

Section Blank.

Lemma trimStart_nil (s : JsString) : trimStart s = [] -> blank s = true.
Proof.
  induction s as [|c s IH]; simpl; [done|].
  destruct (is_white_space c); simpl; [exact IH | discriminate].
Qed.

Lemma trimEnd_nil (s : JsString) : trimEnd s = [] -> blank s = true.
Proof.
  induction s as [|c s IH]; simpl; [done|].
  destruct (trimEnd s); [|discriminate].
  destruct (is_white_space c); simpl; [intros _; by apply IH | discriminate].
Qed.

Lemma blank_trimStart (s : JsString) : blank (trimStart s) = blank s.
Proof.
  induction s as [|c s IH]; simpl; [done|].
  destruct (is_white_space c) eqn:E; simpl; [exact IH | by rewrite E].
Qed.

(** The trimmed text is empty exactly for blank input. *)
Lemma trim_nil_iff (s : JsString) : trim s = [] <-> blank s = true.
Proof.
  split; [|apply trim_blank].
  unfold trim. intros H. apply trimEnd_nil in H.
  by rewrite blank_trimStart in H.
Qed.

Lemma truthy_trim (s : JsString) : truthy (trim s) = negb (blank s).
Proof.
  destruct (blank s) eqn:E.
  - apply trim_blank in E. by rewrite E.
  - destruct (trim s) eqn:Ht; [|done].
    apply trim_nil_iff in Ht. congruence.
Qed.

End Blank.

(** X1. [sendMessage] goes through exactly when the message is not blank
    and no request is loading: otherwise nothing changes and no request is
    issued; when it goes through, the request carries the trimmed text and
    the current session id, the user message is appended, the flag is
    raised and the session id is kept. *)
Theorem sendMessage_dispatch_iff now (message : JsString) st :
  (blank message || isLoading st = true ->
   sendMessage_invoke now message st = (st, None))
  /\ (blank message || isLoading st = false ->
      exists st',
        sendMessage_invoke now message st
        = (st', Some {| ChatRequest.message := trim message;
                        ChatRequest.session_id := sessionId st |})
        /\ messages st' = messages st ++ [userMessage now message]
        /\ isLoading st' = true
        /\ sessionId st' = sessionId st).
Proof.
  unfold sendMessage_invoke. rewrite truthy_trim, negb_involutive.
  split; intros ->; [done|]. eexists. split; [done|]. done.
Qed.

Lemma sendMessage_dispatch_iff_witness :
  let tab := [0x09; 0x20] in
  sendMessage_invoke t1 tab inSession = (inSession, None)
  /\ exists st',
       sendMessage_invoke t1 (js " hi ") inSession
       = (st', Some {| ChatRequest.message := js "hi";
                       ChatRequest.session_id := Some (js "s-1") |})
       /\ isLoading st' = true.
Proof.
  intros tab. split.
  - by apply (proj1 (sendMessage_dispatch_iff t1 tab inSession)).
  - destruct (proj2 (sendMessage_dispatch_iff t1 (js " hi ") inSession)
                eq_refl) as (st' & E & _ & Hl & _).
    exists st'. split; [exact E | exact Hl].
Defined.

(** ** Turns *)

Lemma dialogue_app_le p k n (l : list MessageType) :
  (length l ≤ n)%nat -> dialogue false l = true ->
  dialogue p (l ++ k) = dialogue p k.
Proof.
  revert l. induction n as [|n IH]; intros l Hn Hl.
  - destruct l; [done|simpl in Hn; lia].
  - destruct l as [|[] [|[] l]]; try done.
    simpl in *. apply IH; [lia|done].
Qed.

Lemma dialogue_app p k (l : list MessageType) :
  dialogue false l = true -> dialogue p (l ++ k) = dialogue p k.
Proof. by apply (dialogue_app_le p k (length l)). Qed.

Lemma Conversing_initial : Conversing initialWorld.
Proof. by apply Settled_turns. Qed.

Lemma step_Conversing e w :
  isSending e = true -> freshAt e w = true ->
  Conversing w -> Conversing (step e w).
Proof.
  destruct e as [now message|now i result|result| |]; try discriminate.
  - intros _ Hfresh Hw. simpl.
    apply inSync_true in Hfresh as [Hsl _].
    destruct (sendMessage_call_cases (rendered w) now message (hook w))
      as [E|[Ht Hl]].
    + rewrite E.
      by destruct Hw; [apply Settled_turns|eapply Awaiting_reply].
    + rewrite sendMessage_call_pass by done.
      destruct Hw as [_ Hf Hd|r l u Hb]; [|congruence].
      eapply Awaiting_reply; simpl; [done|by rewrite Hf|done..].
  - intros _ _ Hw.
    destruct Hw as [Hl Hf Hd|r l u Hl Hf Hm Hd Hu Hc].
    + rewrite step_Settle_none by (by rewrite Hf). by apply Settled_turns.
    + destruct i as [|i].
      * rewrite (step_Settle_head _ _ r []) by done.
        apply Settled_turns; [done..|]. cbn [hook].
        rewrite messages_resume, Hm, !map_app, <- app_assoc.
        rewrite dialogue_app by done. simpl.
        by rewrite Hu, replyMessage_type.
      * rewrite step_Settle_none by (by rewrite Hf).
        by eapply Awaiting_reply.
  - intros _ _ Hw. simpl.
    by destruct Hw; [apply Settled_turns|eapply Awaiting_reply].
Qed.

Lemma run_Conversing es w :
  forallb isSending es = true -> freshSends es w = true ->
  Conversing w -> Conversing (run es w).
Proof.
  revert w.
  induction es as [|e es IH]; intros w Hes Hfr Hw; simpl in *; [done|].
  apply andb_true_iff in Hes as [He Hes].
  apply andb_true_iff in Hfr as [Hfe Hfr].
  apply IH; [done..|]. by apply step_Conversing.
Qed.

Lemma Conversing_dialogue w :
  Conversing w ->
  dialogue (isLoading (hook w))
    (map ChatMessage.type (messages (hook w))) = true.
Proof.
  intros [Hl Hf Hd|r l u Hl Hf Hm Hd Hu Hc]; rewrite Hl; [exact Hd|].
  rewrite Hm, map_app, dialogue_app by done. simpl. by rewrite Hu.
Qed.

(** X2. When [sendMessage] calls and their settlements follow one another
    from the initial state and no call is made through a stale callback
    (a render separates a call that went through from the next call), the
    log is a sequence of complete turns, a ['user'] message then its
    ['assistant'] reply, with one more ['user'] message at the end exactly
    while the loading flag is up; the request in flight then carries the
    content of that last message. *)
Theorem sending_keeps_turns es :
  forallb isSending es = true -> freshSends es initialWorld = true ->
  let w := run es initialWorld in
  dialogue (isLoading (hook w))
    (map ChatMessage.type (messages (hook w))) = true
  /\ Forall (fun request =>
              exists m, list.last (messages (hook w)) = Some m
                        /\ ChatMessage.content m
                           = JStr (ChatRequest.message request))
       (inFlight w).
Proof.
  intros Hes Hfr w.
  pose proof (run_Conversing es initialWorld Hes Hfr Conversing_initial)
    as Hw.
  fold w in Hw. split; [by apply Conversing_dialogue|].
  destruct Hw as [Hl Hf Hd|r l u Hl Hf Hm Hd Hu Hc]; rewrite Hf.
  - constructor.
  - constructor; [|constructor]. exists u. rewrite Hm.
    split; [apply list.last_snoc | exact Hc].
Qed.

Lemma sending_keeps_turns_witness :
  let es := [Send t1 (js "hi"); Render; Send t1 (js "too early");
             Settle t2 0 (Rejected networkError); Render;
             Send t1 (js "  "); Send t1 (js "dresses"); Render] in
  forallb isSending es = true
  /\ freshSends es initialWorld = true
  /\ map ChatMessage.type (messages (hook (run es initialWorld)))
     = [user; assistant; user]
  /\ dialogue (isLoading (hook (run es initialWorld)))
       (map ChatMessage.type (messages (hook (run es initialWorld)))) = true.
Proof.
  intros es. split; [done|]. split; [done|]. split; [done|].
  exact (proj1 (sending_keeps_turns es eq_refl eq_refl)).
Defined.

(** ** Requests *)

Lemma forallb_delete {A} (p : A -> bool) (l : list A) i :
  forallb p l = true -> forallb p (delete i l) = true.
Proof.
  revert i. induction l as [|x l IH]; intros i; simpl; [done|].
  intros [Hx Hl]%andb_true_iff. destruct i as [|i]; simpl; [done|].
  by rewrite Hx, IH.
Qed.

(** The state the callbacks closed over is one the hook has been in. *)
Lemma step_rendered_sessionWf e w :
  sessionWf (hook w) = true -> sessionWf (rendered w) = true ->
  sessionWf (rendered (step e w)) = true.
Proof.
  intros Hh Hr. destruct e as [now message|now i result|result| |]; simpl;
    try done.
  - by destruct (sendMessage_call (rendered w) now message (hook w))
      as [st [r|]].
  - by destruct (inFlight w !! i).
Qed.

Lemma step_requestOk e w :
  sessionWf (rendered w) = true -> forallb requestOk (inFlight w) = true ->
  forallb requestOk (inFlight (step e w)) = true.
Proof.
  intros Hs Hf. destruct e as [now message|now i result|result| |]; simpl.
  - destruct (sendMessage_call_cases (rendered w) now message (hook w))
      as [E|[Ht Hl]].
    + by rewrite E.
    + rewrite sendMessage_call_pass by done. simpl.
      rewrite forallb_app, Hf. simpl. unfold requestOk. simpl.
      rewrite (trim_not_blank _ Ht). simpl.
      unfold sessionWf in Hs. rewrite andb_true_r.
      by destruct (sessionId (rendered w)).
  - destruct (inFlight w !! i) eqn:E; [|done]. simpl.
    by apply forallb_delete.
  - done.
  - done.
  - done.
Qed.

(** X3. In every state the hook reaches, whatever calls, settlements,
    history loads and clears led there, the session id is [null] or a
    non-empty string, and every request still in flight carries a message
    that is not blank and a session id that is [null] or non-empty. *)
Theorem requests_well_formed es :
  sessionWf (hook (run es initialWorld)) = true
  /\ forallb requestOk (inFlight (run es initialWorld)) = true.
Proof.
  assert (forall w,
            sessionWf (hook w) = true ->
            sessionWf (rendered w) = true ->
            forallb requestOk (inFlight w) = true ->
            sessionWf (hook (run es w)) = true
            /\ forallb requestOk (inFlight (run es w)) = true) as H.
  { induction es as [|e es IH]; intros w Hs Hr Hf; simpl; [done|].
    apply IH; [by apply step_sessionWf | by apply step_rendered_sessionWf
              | by apply step_requestOk]. }
  by apply H.
Qed.



(** ** Loading the history *)

(** X5. [loadChatHistory] never touches the loading flag or the session
    id; it leaves the whole state as it is when the session id is [null]
    or the empty string and when the request is rejected; and its result
    depends on the server's answer for the current session id only. *)
Theorem loadChatHistory_frame api api' st :
  isLoading (loadChatHistory api st) = isLoading st
  /\ sessionId (loadChatHistory api st) = sessionId st
  /\ (truthy_opt (sessionId st) = false -> loadChatHistory api st = st)
  /\ (forall sid error,
        sessionId st = Some sid -> api sid = Rejected error ->
        loadChatHistory api st = st)
  /\ (forall sid,
        sessionId st = Some sid -> api sid = api' sid ->
        loadChatHistory api st = loadChatHistory api' st).
Proof.
  unfold loadChatHistory, loadChatHistory_invoke.
  destruct (sessionId st) as [sid|] eqn:Hs; simpl.
  - destruct (truthy sid) eqn:Ht; simpl.
    + split; [|split; [|split; [|split]]].
      * by destruct (api sid).
      * by destruct (api sid).
      * discriminate.
      * intros sid' error [= <-] E. by rewrite E.
      * intros sid' [= <-] E. by rewrite E.
    + split; [|split; [|split; [|split]]]; done.
  - split; [|split; [|split; [|split]]]; done.
Qed.

Lemma loadChatHistory_frame_witness :
  let emptySession := setSessionId (Some []) inSession in
  let failing := fun _ : JsString =>
                   Rejected (A := list HistoryEntry.t) networkError in
  truthy_opt (sessionId emptySession) = false
  /\ loadChatHistory (historyOf [storedReply]) emptySession = emptySession
  /\ loadChatHistory failing inSession = inSession.
Proof.
  intros emptySession failing.
  split; [done|]. split.
  - by apply (proj1 (proj2 (proj2 (loadChatHistory_frame
                 (historyOf [storedReply]) (historyOf [storedReply])
                 emptySession)))).
  - by apply (proj1 (proj2 (proj2 (proj2 (loadChatHistory_frame
                 failing failing inSession))))
                (js "s-1") networkError).
Defined.

Lemma formatMessage_cardless (history : list HistoryEntry.t) :
  forallb cardless (map formatMessage history) = true.
Proof. induction history as [|e h IH]; simpl; done. Qed.

(** X6. After the history of a session has been loaded, no bubble of the
    log presents a product or an order card, whatever attachments the
    stored messages have; a reply with products that arrives through
    [sendMessage] does present cards. *)
Theorem reloaded_log_has_no_cards api st sid history now response p ps :
  sessionId st = Some sid -> sid ≠ [] -> api sid = Fulfilled history ->
  ChatResponse.products response = Some (p :: ps) ->
  forallb cardless (messages (loadChatHistory api st)) = true
  /\ cardless (assistantMessage now response) = false.
Proof.
  intros Hs Hsid Hapi Hp. split.
  - unfold loadChatHistory, loadChatHistory_invoke.
    apply truthy_true in Hsid. rewrite Hs. simpl. rewrite Hsid. simpl.
    rewrite Hapi. simpl. apply formatMessage_cardless.
  - unfold cardless, presentedProducts. simpl. by rewrite Hp.
Qed.

Lemma reloaded_log_has_no_cards_witness :
  forallb cardless
    (messages (loadChatHistory (historyOf [storedQuestion; storedReply])
                 inSession)) = true
  /\ cardless (assistantMessage t2 searchResponse) = false.
Proof.
  refine (reloaded_log_has_no_cards
            (historyOf [storedQuestion; storedReply]) inSession
            (js "s-1") [storedQuestion; storedReply] t2 searchResponse
            (dress 1) [dress 2; dress 3; dress 4; dress 5]
            eq_refl _ eq_refl eq_refl).
  discriminate.
Defined.

(** * The chat widget *)

(** X7. The submit handler of the widget clears the input exactly when a
    request goes out: with the submit button disabled it changes nothing
    and sends nothing; otherwise the request carries the trimmed input and
    the session id, the user message is appended, and the button is
    disabled straight away. *)
Theorem handleSubmit_clears_iff_sent now ws st :
  (submitDisabled ws st = true ->
   handleSubmit_invoke now ws st = (ws, (st, None)))
  /\ (submitDisabled ws st = false ->
      exists st',
        handleSubmit_invoke now ws st
        = (setInputMessage [] ws,
           (st', Some {| ChatRequest.message := trim (inputMessage ws);
                         ChatRequest.session_id := sessionId st |}))
        /\ messages st' = messages st ++ [userMessage now (inputMessage ws)]
        /\ submitDisabled (setInputMessage [] ws) st' = true).
Proof.
  unfold submitDisabled, handleSubmit_invoke.
  rewrite (orb_comm (isLoading st)).
  split; intros E; rewrite E; [done|].
  apply orb_false_iff in E as [Ht Hl].
  apply negb_false_iff, truthy_true in Ht.
  rewrite sendMessage_invoke_pass by done.
  eexists. split; [done|]. done.
Qed.

Lemma handleSubmit_clears_iff_sent_witness :
  let typing := setInputMessage (js " red dresses ") initialWidget in
  submitDisabled initialWidget inSession = true
  /\ handleSubmit_invoke t1 initialWidget inSession
     = (initialWidget, (inSession, None))
  /\ submitDisabled typing inSession = false
  /\ (handleSubmit_invoke t1 typing inSession).1 = initialWidget
  /\ (handleSubmit_invoke t1 typing inSession).2.2
     = Some {| ChatRequest.message := js "red dresses";
               ChatRequest.session_id := Some (js "s-1") |}.
Proof.
  intros typing. split; [done|]. split.
  - by apply (proj1 (handleSubmit_clears_iff_sent t1 initialWidget inSession)).
  - split; [done|].
    destruct (proj2 (handleSubmit_clears_iff_sent t1 typing inSession)
                eq_refl) as (st' & -> & _).
    split; reflexivity.
Defined.

(** While the flag is up the log is not empty, stale callbacks or not. *)
Lemma step_loading_nonempty e w :
  isSending e = true ->
  (isLoading (hook w) = true -> messages (hook w) ≠ []) ->
  isLoading (hook (step e w)) = true -> messages (hook (step e w)) ≠ [].
Proof.
  destruct e as [now message|now i result|result| |]; try discriminate;
    intros _ Hw.
  - simpl.
    destruct (sendMessage_call_cases (rendered w) now message (hook w))
      as [E|[Ht Hl]].
    + by rewrite E.
    + rewrite sendMessage_call_pass by done. simpl. intros _.
      unfold append. by destruct (messages (hook w)).
  - destruct (inFlight w !! i) as [r|] eqn:E.
    + unfold step. rewrite E. cbn [hook].
      by rewrite isLoading_resume.
    + by rewrite step_Settle_none.
  - done.
Qed.

Lemma run_loading_nonempty es w :
  forallb isSending es = true ->
  (isLoading (hook w) = true -> messages (hook w) ≠ []) ->
  isLoading (hook (run es w)) = true -> messages (hook (run es w)) ≠ [].
Proof.
  revert w. induction es as [|e es IH]; intros w Hes Hw; simpl in *; [done|].
  apply andb_true_iff in Hes as [He Hes].
  apply IH; [done|]. by apply step_loading_nonempty.
Qed.

(** X8. While only [sendMessage] calls and their settlements happen, an
    open, unminimized widget shows the typing indicator exactly while a
    request is pending: it shows the welcome panel only when idle with an
    empty log, and otherwise the whole log with the indicator following
    the loading flag. *)
Theorem typing_indicator_while_loading es ws :
  forallb isSending es = true ->
  isOpen ws = true -> isMinimized ws = false ->
  let st := hook (run es initialWorld) in
  widgetView ws st
  = match messages st with
    | [] => Welcome
    | _ :: _ => Conversation (messages st) (isLoading st)
    end
  /\ (isLoading st = true ->
      widgetView ws st = Conversation (messages st) true).
Proof.
  intros Hes Ho Hm st. unfold widgetView. rewrite Ho, Hm. simpl.
  assert (isLoading st = true -> messages st ≠ []) as Hne.
  { apply run_loading_nonempty; [done|]. discriminate. }
  destruct (messages st) as [|m l] eqn:E; simpl.
  - split; [done|]. intros Hl. by destruct (Hne Hl).
  - split; [done|]. by intros ->.
Qed.

Lemma typing_indicator_while_loading_witness :
  let es := [Send t1 (js "hi")] in
  let ws := {| isOpen := true; inputMessage := []; isMinimized := false |} in
  forallb isSending es = true
  /\ widgetView ws (hook (run es initialWorld))
     = Conversation [userMessage t1 (js "hi")] true.
Proof.
  intros es ws. split; [done|].
  exact (proj2 (typing_indicator_while_loading es ws eq_refl eq_refl eq_refl)
           eq_refl).
Defined.

(** * Credentials: [localStorage] and the interceptors *)

Arguments js : simpl never.

Section Interceptors.

Lemma token_ne_user : js "token" ≠ js "user".
Proof. intros H. vm_compute in H. discriminate. Qed.

Lemma bearer_token (token : JsString) :
  drop 7 (js "Bearer " ++ token) = token.
Proof. reflexivity. Qed.

(** Without a usable token the interceptor is the identity. *)
Lemma requestInterceptor_no_token (storage : Storage) (headers : Headers) :
  truthy_opt (storage !! js "token") = false ->
  requestInterceptor storage headers = headers.
Proof.
  unfold requestInterceptor, getItem.
  destruct (storage !! js "token") as [token|]; simpl; [|done].
  by intros ->.
Qed.

Lemma lookup_cleared_token (storage : Storage) :
  removeItem (js "user") (removeItem (js "token") storage) !! js "token"
  = None.
Proof.
  unfold removeItem.
  rewrite lookup_delete_ne by (symmetry; apply token_ne_user).
  apply lookup_delete_eq.
Qed.

Lemma lookup_cleared_user (storage : Storage) :
  removeItem (js "user") (removeItem (js "token") storage) !! js "user"
  = None.
Proof. unfold removeItem. apply lookup_delete_eq. Qed.

Lemma lookup_cleared_other (storage : Storage) (key : JsString) :
  key ≠ js "token" -> key ≠ js "user" ->
  removeItem (js "user") (removeItem (js "token") storage) !! key
  = storage !! key.
Proof.
  intros Ht Hu. unfold removeItem.
  by rewrite !lookup_delete_ne.
Qed.

(** Clearing only removes: what is found afterwards was there before. *)
Lemma lookup_cleared_Some (storage : Storage) (key value : JsString) :
  removeItem (js "user") (removeItem (js "token") storage) !! key
  = Some value ->
  storage !! key = Some value.
Proof.
  unfold removeItem. intros H.
  destruct (decide (key = js "user")) as [->|Hu];
    [by rewrite lookup_delete_eq in H|].
  rewrite lookup_delete_ne in H by done.
  destruct (decide (key = js "token")) as [->|Ht];
    [by rewrite lookup_delete_eq in H|].
  by rewrite lookup_delete_ne in H.
Qed.

Lemma responseRejected_cases (error : Failure.t) (storage : Storage) :
  (Failure.status error = Some 401%Z
   /\ responseRejected error storage
      = removeItem (js "user") (removeItem (js "token") storage))
  \/ (Failure.status error ≠ Some 401%Z
      /\ responseRejected error storage = storage).
Proof.
  unfold responseRejected.
  destruct (Failure.status error) as [code|]; [|by right].
  destruct (code =? 401)%Z eqn:E.
  - apply Z.eqb_eq in E as ->. by left.
  - apply Z.eqb_neq in E. right. split; congruence.
Qed.

Lemma responseRejected_401 (error : Failure.t) (storage : Storage) :
  Failure.status error = Some 401%Z ->
  responseRejected error storage
  = removeItem (js "user") (removeItem (js "token") storage).
Proof.
  intros H.
  by destruct (responseRejected_cases error storage) as [[_ ->]|[? _]].
Qed.

Lemma responseRejected_other (error : Failure.t) (storage : Storage) :
  Failure.status error ≠ Some 401%Z ->
  responseRejected error storage = storage.
Proof.
  intros H.
  by destruct (responseRejected_cases error storage) as [[? _]|[_ ->]].
Qed.

Lemma responseRejected_lookup_other (error : Failure.t) (storage : Storage)
  (key : JsString) :
  key ≠ js "token" -> key ≠ js "user" ->
  responseRejected error storage !! key = storage !! key.
Proof.
  intros Ht Hu.
  destruct (responseRejected_cases error storage) as [[_ ->]|[_ ->]];
    [by apply lookup_cleared_other | done].
Qed.

Lemma responseRejected_lookup_Some (error : Failure.t) (storage : Storage)
  (key value : JsString) :
  responseRejected error storage !! key = Some value ->
  storage !! key = Some value.
Proof.
  destruct (responseRejected_cases error storage) as [[_ ->]|[_ ->]];
    [apply lookup_cleared_Some | done].
Qed.

Lemma call_cases {A} (server : Headers -> Reply A) (storage : Storage) :
  (exists data,
     server (requestInterceptor storage defaultHeaders) = Ok data
     /\ call server storage = (Ok data, storage))
  \/ (exists error,
        server (requestInterceptor storage defaultHeaders) = Err error
        /\ call server storage = (Err error, responseRejected error storage)).
Proof.
  unfold call.
  destruct (server _) as [data|error]; [left|right]; eauto.
Qed.

Lemma call_lookup_Some {A} (server : Headers -> Reply A)
  (storage : Storage) (key value : JsString) :
  (call server storage).2 !! key = Some value ->
  storage !! key = Some value.
Proof.
  destruct (call_cases server storage) as [(d & _ & ->)|(e & _ & ->)];
    [done | apply responseRejected_lookup_Some].
Qed.

End Interceptors.

(** X9. The request interceptor sets [Authorization] to ["Bearer "]
    followed by the stored token exactly when [localStorage] holds a
    non-empty token, the token being the header without its first seven
    characters; with no token or an empty one the headers are returned as
    they are; and no other header is ever changed. *)
Theorem requestInterceptor_authorization
  (storage : Storage) (headers : Headers) :
  requestInterceptor storage headers !! js "Authorization"
  = match storage !! js "token" with
    | Some token =>
        if truthy token then Some (js "Bearer " ++ token)
        else headers !! js "Authorization"
    | None => headers !! js "Authorization"
    end
  /\ (forall token,
        requestInterceptor storage headers !! js "Authorization"
        = Some (js "Bearer " ++ token) ->
        headers !! js "Authorization" = None ->
        storage !! js "token" = Some token /\ token ≠ [])
  /\ (truthy_opt (storage !! js "token") = false ->
      requestInterceptor storage headers = headers)
  /\ (forall key,
        key ≠ js "Authorization" ->
        requestInterceptor storage headers !! key = headers !! key).
Proof.
  split; [|split; [|split]].
  - unfold requestInterceptor, getItem.
    destruct (storage !! js "token") as [token|]; [|done].
    destruct (truthy token); [apply lookup_insert_eq | done].
  - intros token H Hnone.
    unfold requestInterceptor, getItem in H.
    destruct (storage !! js "token") as [token'|]; [|congruence].
    destruct (truthy token') eqn:Ht; [|congruence].
    rewrite lookup_insert_eq in H.
    assert (drop 7 (js "Bearer " ++ token') = drop 7 (js "Bearer " ++ token))
      as E by congruence.
    rewrite !bearer_token in E. subst token'.
    split; [done | by apply truthy_true].
  - apply requestInterceptor_no_token.
  - intros key Hk. unfold requestInterceptor, getItem.
    destruct (storage !! js "token") as [token|]; [|done].
    destruct (truthy token); [|done].
    by rewrite lookup_insert_ne.
Qed.

Lemma requestInterceptor_authorization_witness :
  let storage : Storage := {[ js "token" := js "abc" ]} in
  let blankToken : Storage := {[ js "token" := [] ]} in
  requestInterceptor storage defaultHeaders !! js "Authorization"
    = Some (js "Bearer abc")
  /\ requestInterceptor storage defaultHeaders !! js "Content-Type"
     = Some (js "application/json")
  /\ requestInterceptor blankToken defaultHeaders = defaultHeaders.
Proof.
  intros storage blankToken.
  destruct (requestInterceptor_authorization storage defaultHeaders)
    as (H1 & _ & _ & H4).
  split; [exact H1|]. split.
  - rewrite H4; [reflexivity|]. intros H. vm_compute in H. discriminate.
  - apply (proj1 (proj2 (proj2 (requestInterceptor_authorization
                                  blankToken defaultHeaders)))).
    reflexivity.
Defined.

(** X10. A rejection with status 401 removes the token and the user from
    [localStorage], so that the requests that follow carry no
    [Authorization] header of the interceptor's; every other key is kept,
    and a rejection with another status, or without a response, leaves the
    storage untouched. *)
Theorem unauthorized_clears_credentials
  (error : Failure.t) (storage : Storage) (headers : Headers) :
  (Failure.status error = Some 401%Z ->
   responseRejected error storage !! js "token" = None
   /\ responseRejected error storage !! js "user" = None
   /\ requestInterceptor (responseRejected error storage) headers = headers)
  /\ (Failure.status error ≠ Some 401%Z ->
      responseRejected error storage = storage)
  /\ (forall key,
        key ≠ js "token" -> key ≠ js "user" ->
        responseRejected error storage !! key = storage !! key).
Proof.
  destruct (responseRejected_cases error storage) as [[Hs ->]|[Hs ->]].
  - split; [|split]; [|done|].
    + intros _. split; [apply lookup_cleared_token|].
      split; [apply lookup_cleared_user|].
      apply requestInterceptor_no_token.
      by rewrite lookup_cleared_token.
    + intros key. apply lookup_cleared_other.
  - split; [|split]; done.
Qed.

Lemma unauthorized_clears_credentials_witness :
  let expired := {| Failure.status := Some 401%Z; Failure.detail := None;
                    Failure.message := None |} in
  let storage : Storage :=
    {[ js "token" := js "abc"; js "user" := js "{}"; js "theme" := js "dark" ]} in
  Failure.status expired = Some 401%Z
  /\ requestInterceptor (responseRejected expired storage) defaultHeaders
     = defaultHeaders
  /\ responseRejected expired storage !! js "theme" = Some (js "dark").
Proof.
  intros expired storage.
  destruct (unauthorized_clears_credentials expired storage defaultHeaders)
    as (H1 & _ & H3).
  split; [done|]. split; [by apply H1|].
  rewrite H3; [reflexivity| |]; intros H; vm_compute in H; discriminate.
Defined.

(** * Signing in and out ([App.tsx]) *)

Section SignIn.

Variable JSON_stringify : Json -> JsString.
Variable server : Server.t.

(** The four ways [handleLogin] ends. *)
Lemma handleLogin_cases (credentials : LoginCredentials.t) (s : App.State)
  (storage : Storage) :
  (exists error,
     Server.login server credentials (sentWith storage) = Err error
     /\ App.handleLogin JSON_stringify server credentials s storage
        = (App.setIsLoading false (App.setIsLoading true s),
           responseRejected error storage, Some error))
  \/ (exists response error,
        let storage2 :=
          setItem (js "token") (LoginResponse.access_token response)
            storage in
        Server.login server credentials (sentWith storage) = Ok response
        /\ Server.getCurrentUser server (sentWith storage2) = Err error
        /\ App.handleLogin JSON_stringify server credentials s storage
           = (App.setIsLoading false (App.setIsLoading true s),
              responseRejected error storage2, Some error))
  \/ (exists response currentUser,
        let storage2 :=
          setItem (js "token") (LoginResponse.access_token response)
            storage in
        Server.login server credentials (sentWith storage) = Ok response
        /\ Server.getCurrentUser server (sentWith storage2) = Ok currentUser
        /\ App.handleLogin JSON_stringify server credentials s storage
           = (App.setIsLoading false
                (App.setIsAuthenticated true
                   (App.setUser currentUser (App.setIsLoading true s))),
              setItem (js "user") (JSON_stringify currentUser) storage2,
              None)).
Proof.
  unfold App.handleLogin, call, sentWith.
  destruct (Server.login server credentials _) as [response|error].
  - destruct (Server.getCurrentUser server _) as [currentUser|error] eqn:E.
    + right. right. exists response, currentUser. by rewrite E.
    + right. left. exists response, error. by rewrite E.
  - left. by exists error.
Qed.

End SignIn.

(** X11. [handleLogin] always lowers the loading flag again.  It ends
    without an error only when both the login and the request for the
    current user succeed; the state is then authenticated with the user the
    server returned, and the storage holds the token of the login response
    and the stringified user.  When it throws, [user] and
    [isAuthenticated] are as before, and a 401 leaves neither token nor
    user in the storage; but when the login succeeded and the user request
    failed with another status, the new token stays in the storage. *)
Theorem handleLogin_outcome (JSON_stringify : Json -> JsString)
  (server : Server.t) (credentials : LoginCredentials.t) (s : App.State)
  (storage : Storage) :
  let r := App.handleLogin JSON_stringify server credentials s storage in
  let s' := r.1.1 in
  let storage' := r.1.2 in
  App.isLoading s' = false
  /\ (r.2 = None ->
      App.isAuthenticated s' = true
      /\ exists response,
           Server.login server credentials (sentWith storage) = Ok response
           /\ storage' !! js "token"
              = Some (LoginResponse.access_token response)
           /\ Server.getCurrentUser server
                (sentWith (setItem (js "token")
                             (LoginResponse.access_token response) storage))
              = Ok (App.user s')
           /\ storage' !! js "user" = Some (JSON_stringify (App.user s')))
  /\ (forall error,
        r.2 = Some error ->
        App.isAuthenticated s' = App.isAuthenticated s
        /\ App.user s' = App.user s
        /\ (Failure.status error = Some 401%Z ->
            storage' !! js "token" = None /\ storage' !! js "user" = None)
        /\ (Failure.status error ≠ Some 401%Z ->
            forall response,
              Server.login server credentials (sentWith storage)
              = Ok response ->
              storage' !! js "token"
              = Some (LoginResponse.access_token response))).
Proof.
  intros r s' storage'. unfold s', storage', r. clear r s' storage'.
  destruct (handleLogin_cases JSON_stringify server credentials s storage)
    as [(e & Hl & ->)|[(resp & e & Hl & Hm & ->)|(resp & u & Hl & Hm & ->)]];
    simpl.
  - split; [done|]. split; [done|]. intros error [= <-].
    split; [done|]. split; [done|]. split.
    + intros H401. rewrite responseRejected_401 by done.
      split; [apply lookup_cleared_token | apply lookup_cleared_user].
    + intros _ response. congruence.
  - split; [done|]. split; [done|]. intros error [= <-].
    split; [done|]. split; [done|]. split.
    + intros H401. rewrite responseRejected_401 by done.
      split; [apply lookup_cleared_token | apply lookup_cleared_user].
    + intros Hne response. rewrite Hl. intros [= <-].
      rewrite responseRejected_other by done.
      apply lookup_insert_eq.
  - split; [done|]. split; [|done]. intros _. split; [done|].
    exists resp. split; [done|]. unfold setItem. split; [|split].
    + rewrite lookup_insert_ne by (symmetry; apply token_ne_user).
      apply lookup_insert_eq.
    + exact Hm.
    + apply lookup_insert_eq.
Qed.

Lemma handleLogin_outcome_witness :
  (App.handleLogin demoStringify demoServer demoCredentials
     App.initial ∅).2 = None
  /\ App.isAuthenticated
       (App.handleLogin demoStringify demoServer demoCredentials
          App.initial ∅).1.1 = true
  /\ (App.handleLogin demoStringify flakyServer demoCredentials
        App.initial ∅).2 = Some unavailable
  /\ (App.handleLogin demoStringify flakyServer demoCredentials
        App.initial ∅).1.2 !! js "token" = Some (js "abc").
Proof.
  split; [reflexivity|]. split.
  - by apply (proj1 (proj2 (handleLogin_outcome
                demoStringify demoServer demoCredentials App.initial ∅))).
  - split; [reflexivity|].
    refine (proj2 (proj2 (proj2 (proj2 (proj2 (handleLogin_outcome
              demoStringify flakyServer demoCredentials App.initial ∅))
              unavailable eq_refl))) _ _ eq_refl).
    discriminate.
Defined.

(** X12. Whatever a login attempt did, [handleLogout] after it leaves the
    state unauthenticated with no user, the storage without token and
    user, and the requests that follow without an [Authorization] header
    of the interceptor's; every other key of the storage is as it was
    before the login attempt. *)
Theorem logout_after_login (JSON_stringify : Json -> JsString)
  (server : Server.t) (credentials : LoginCredentials.t) (s : App.State)
  (storage : Storage) (headers : Headers) :
  let r := App.handleLogin JSON_stringify server credentials s storage in
  let out := App.handleLogout r.1.1 r.1.2 in
  App.isAuthenticated out.1 = false
  /\ App.user out.1 = JNull
  /\ out.2 !! js "token" = None
  /\ out.2 !! js "user" = None
  /\ requestInterceptor out.2 headers = headers
  /\ forall key,
       key ≠ js "token" -> key ≠ js "user" ->
       out.2 !! key = storage !! key.
Proof.
  intros r out. unfold out, App.handleLogout. simpl.
  split; [done|]. split; [done|].
  split; [apply lookup_cleared_token|].
  split; [apply lookup_cleared_user|]. split.
  - apply requestInterceptor_no_token. by rewrite lookup_cleared_token.
  - intros key Ht Hu. rewrite lookup_cleared_other by done.
    unfold r.
    destruct (handleLogin_cases JSON_stringify server credentials s storage)
      as [(e & _ & ->)|[(resp & e & _ & _ & ->)|(resp & u & _ & _ & ->)]];
      simpl.
    + by apply responseRejected_lookup_other.
    + rewrite responseRejected_lookup_other by done.
      unfold setItem. by rewrite lookup_insert_ne.
    + unfold setItem. by rewrite !lookup_insert_ne.
Qed.

Lemma logout_after_login_witness :
  let r := App.handleLogin demoStringify demoServer demoCredentials
             App.initial savedSession in
  let out := App.handleLogout r.1.1 r.1.2 in
  App.isAuthenticated r.1.1 = true
  /\ App.isAuthenticated out.1 = false
  /\ sentWith out.2 = defaultHeaders
  /\ out.2 !! js "theme" = Some (js "dark").
Proof.
  intros r out.
  destruct (logout_after_login demoStringify demoServer demoCredentials
              App.initial savedSession defaultHeaders)
    as (Ha & _ & _ & _ & Hh & Hk).
  split; [reflexivity|]. split; [exact Ha|]. split; [exact Hh|].
  etrans; [apply Hk|reflexivity]; intros H; vm_compute in H; discriminate.
Defined.

Section Register.

Variable JSON_stringify : Json -> JsString.
Variable server : Server.t.

(** What every end of [handleLogin] has in common. *)
Lemma handleLogin_summary (credentials : LoginCredentials.t) (s : App.State)
  (storage : Storage) :
  let r := App.handleLogin JSON_stringify server credentials s storage in
  App.isLoading r.1.1 = false
  /\ App.showLoginForm r.1.1 = App.showLoginForm s
  /\ match r.2 with
     | None => App.isAuthenticated r.1.1 = true
     | Some _ =>
         App.isAuthenticated r.1.1 = App.isAuthenticated s
         /\ App.user r.1.1 = App.user s
     end.
Proof.
  intros r. unfold r.
  destruct (handleLogin_cases JSON_stringify server credentials s storage)
    as [(e & _ & ->)|[(resp & e & _ & _ & ->)|(resp & u & _ & _ & ->)]];
    done.
Qed.

Lemma handleRegister_cases (userData : RegisterData.t) (s : App.State)
  (storage : Storage) :
  let credentials :=
    {| LoginCredentials.email := RegisterData.email userData;
       LoginCredentials.password := RegisterData.password userData |} in
  (exists error,
     Server.register server userData (sentWith storage) = Err error
     /\ App.handleRegister JSON_stringify server userData s storage
        = (App.setIsLoading false (App.setIsLoading true s),
           responseRejected error storage, Some error))
  \/ (exists created,
        let r := App.handleLogin JSON_stringify server credentials
                   (App.setIsLoading true s) storage in
        Server.register server userData (sentWith storage) = Ok created
        /\ App.handleRegister JSON_stringify server userData s storage
           = (App.setIsLoading false r.1.1, r.1.2, r.2)).
Proof.
  intros credentials. unfold App.handleRegister, call, sentWith.
  destruct (Server.register server userData _) as [created|error].
  - right. exists created. split; [done|]. fold credentials.
    by destruct (App.handleLogin _ _ credentials _ _) as [[s2 st2] thrown].
  - left. by exists error.
Qed.

Lemma handleRegister_summary (userData : RegisterData.t) (s : App.State)
  (storage : Storage) :
  let r := App.handleRegister JSON_stringify server userData s storage in
  App.isLoading r.1.1 = false
  /\ App.showLoginForm r.1.1 = App.showLoginForm s
  /\ match r.2 with
     | None => App.isAuthenticated r.1.1 = true
     | Some _ =>
         App.isAuthenticated r.1.1 = App.isAuthenticated s
         /\ App.user r.1.1 = App.user s
     end.
Proof.
  intros r. unfold r.
  destruct (handleRegister_cases userData s storage)
    as [(e & _ & ->)|(created & _ & ->)]; [done|].
  cbn [fst snd].
  destruct (handleLogin_summary
              {| LoginCredentials.email := RegisterData.email userData;
                 LoginCredentials.password := RegisterData.password userData |}
              (App.setIsLoading true s) storage) as (_ & Hf & Ha).
  split; [done|]. split; [exact Hf|].
  by destruct (App.handleLogin _ _ _ _ _).2.
Qed.

End Register.

(** X13. [handleRegister] signs the new account in with the email and
    password just registered, and only when the registration succeeded:
    a rejected registration is thrown as it is, with no login request, no
    token written, and [user] and [isAuthenticated] unchanged.  It ends
    without an error only authenticated, with the token of that login in
    the storage; whenever it throws, [user] and [isAuthenticated] are as
    before; and it always lowers the loading flag. *)
Theorem handleRegister_outcome (JSON_stringify : Json -> JsString)
  (server : Server.t) (userData : RegisterData.t) (s : App.State)
  (storage : Storage) :
  let r := App.handleRegister JSON_stringify server userData s storage in
  let credentials :=
    {| LoginCredentials.email := RegisterData.email userData;
       LoginCredentials.password := RegisterData.password userData |} in
  App.isLoading r.1.1 = false
  /\ (forall error,
        Server.register server userData (sentWith storage) = Err error ->
        r.2 = Some error
        /\ r.1.2 = responseRejected error storage
        /\ App.isAuthenticated r.1.1 = App.isAuthenticated s
        /\ App.user r.1.1 = App.user s)
  /\ (r.2 = None ->
      App.isAuthenticated r.1.1 = true
      /\ exists created response,
           Server.register server userData (sentWith storage) = Ok created
           /\ Server.login server credentials (sentWith storage)
              = Ok response
           /\ r.1.2 !! js "token"
              = Some (LoginResponse.access_token response))
  /\ (forall error,
        r.2 = Some error ->
        App.isAuthenticated r.1.1 = App.isAuthenticated s
        /\ App.user r.1.1 = App.user s).
Proof.
  intros r credentials.
  destruct (handleRegister_summary JSON_stringify server userData s storage)
    as (Hl & _ & Ha). fold r in Hl, Ha.
  split; [exact Hl|]. split; [|split].
  - intros error Herr. unfold r.
    destruct (handleRegister_cases JSON_stringify server userData s storage)
      as [(e & He & ->)|(created & Hc & _)]; [|congruence].
    assert (e = error) as -> by congruence. done.
  - intros Hnone. rewrite Hnone in Ha. split; [exact Ha|].
    unfold r in *. clear r.
    destruct (handleRegister_cases JSON_stringify server userData s storage)
      as [(e & _ & E)|(created & Hc & E)]; rewrite E in Hnone |- *;
      [discriminate|].
    cbn [fst snd] in *. fold credentials in Hnone |- *.
    destruct (handleLogin_cases JSON_stringify server credentials
                (App.setIsLoading true s) storage)
      as [(e & _ & E')|[(resp & e & _ & _ & E')|(resp & u & Hlogin & _ & E')]];
      rewrite E' in Hnone |- *; [discriminate..|].
    exists created, resp. split; [done|]. split; [done|].
    cbn [fst snd]. unfold setItem.
    rewrite lookup_insert_ne by (symmetry; apply token_ne_user).
    apply lookup_insert_eq.
  - intros error Hsome. by rewrite Hsome in Ha.
Qed.

Lemma handleRegister_outcome_witness :
  let r := App.handleRegister demoStringify strictServer demoRegistration
             App.initial savedSession in
  Server.register strictServer demoRegistration (sentWith savedSession)
    = Err unavailable
  /\ r.2 = Some unavailable
  /\ r.1.2 = savedSession
  /\ App.isAuthenticated r.1.1 = false.
Proof.
  intros r. split; [reflexivity|].
  destruct (proj1 (proj2 (handleRegister_outcome
              demoStringify strictServer demoRegistration App.initial
              savedSession)) unavailable eq_refl) as (H1 & H2 & H3 & _).
  split; [exact H1|]. split; [|exact H3].
  etrans; [exact H2|]. apply responseRejected_other. discriminate.
Defined.

(** * Restoring a session on start ([initializeApp]) *)

Section Initialize.

Variable JSON_parse : JsString -> option Json.
Variable server : Server.t.

Lemma call_not_401 {A} (endpoint : Headers -> Reply A) (storage : Storage) :
  (forall headers error,
     endpoint headers = Err error -> Failure.status error ≠ Some 401%Z) ->
  (call endpoint storage).2 = storage.
Proof.
  intros H.
  destruct (call_cases endpoint storage) as [(d & _ & ->)|(e & He & ->)];
    [done|].
  apply responseRejected_other. by eapply H.
Qed.

Lemma truthy_opt_call {A} (endpoint : Headers -> Reply A) (storage : Storage)
  (key : JsString) :
  truthy_opt (storage !! key) = false ->
  truthy_opt ((call endpoint storage).2 !! key) = false.
Proof.
  intros H.
  destruct ((call endpoint storage).2 !! key) as [v|] eqn:E; [|done].
  apply call_lookup_Some in E. by rewrite E in H.
Qed.

End Initialize.

(** X14. [initializeApp] never writes to the storage: whatever is found
    there afterwards was there before.  It never signs a user out, and it
    turns an unauthenticated state into an authenticated one only when the
    storage held a non-empty token and a non-empty user text that
    [JSON.parse] accepts; when the token or the user text is missing or
    empty, [user] and [isAuthenticated] are left as they were. *)
Theorem initializeApp_restores_from_storage
  (JSON_parse : JsString -> option Json) (server : Server.t)
  (s : App.State) (storage : Storage) :
  let r := App.initializeApp JSON_parse server s storage in
  (forall key value,
     r.2 !! key = Some value -> storage !! key = Some value)
  /\ (App.isAuthenticated s = true -> App.isAuthenticated r.1 = true)
  /\ (App.isAuthenticated r.1 = true ->
      App.isAuthenticated s = true
      \/ exists token userData parsedUser,
           storage !! js "token" = Some token /\ token ≠ []
           /\ storage !! js "user" = Some userData /\ userData ≠ []
           /\ JSON_parse userData = Some parsedUser)
  /\ (truthy_opt (storage !! js "token")
      && truthy_opt (storage !! js "user") = false ->
      App.isAuthenticated r.1 = App.isAuthenticated s
      /\ App.user r.1 = App.user s).
Proof.
  intros r. unfold r, App.initializeApp. clear r.
  destruct (call (Server.getAppInfo server) storage)
    as [info storage1] eqn:E1. lazy beta iota zeta.
  destruct (call (Server.healthCheck server) storage1)
    as [health storage2] eqn:E2. lazy beta iota zeta.
  assert (forall key value,
            storage2 !! key = Some value -> storage !! key = Some value)
    as Hback.
  { intros key value H.
    apply (call_lookup_Some (Server.getAppInfo server) storage).
    rewrite E1. cbn [snd].
    apply (call_lookup_Some (Server.healthCheck server) storage1).
    by rewrite E2. }
  set (s1 := match info with Ok i => App.setAppInfo i s | Err _ => s end).
  set (s2 := match health with
             | Ok h => App.setHealthStatus h s1
             | Err _ => s1
             end).
  assert (App.isAuthenticated s2 = App.isAuthenticated s
          /\ App.user s2 = App.user s) as [Ha Hu].
  { unfold s2, s1. by destruct health, info. }
  unfold getItem.
  destruct (storage2 !! js "token") as [token|] eqn:Ht;
    [|cbn [fst snd]; rewrite Ha, Hu;
      split; [exact Hback|]; split; [done|]; split; [by left|done]].
  destruct (storage2 !! js "user") as [userData|] eqn:Hd;
    [|cbn [fst snd]; rewrite Ha, Hu;
      split; [exact Hback|]; split; [done|]; split; [by left|done]].
  pose proof (Hback _ _ Ht) as Ht0. pose proof (Hback _ _ Hd) as Hd0.
  destruct (truthy token && truthy userData) eqn:Hboth.
  - apply andb_true_iff in Hboth as [Htt Hdt].
    assert (forall key value,
              removeItem (js "user") (removeItem (js "token") storage2)
                !! key = Some value -> storage !! key = Some value)
      as Hback'.
    { intros key value H. by apply Hback, lookup_cleared_Some. }
    destruct (JSON_parse userData) as [parsedUser|] eqn:Hp.
    + assert (exists token userData parsedUser,
                storage !! js "token" = Some token /\ token ≠ []
                /\ storage !! js "user" = Some userData /\ userData ≠ []
                /\ JSON_parse userData = Some parsedUser) as Hex.
      { exists token, userData, parsedUser.
        repeat split; try done; by apply truthy_true. }
      destruct (call (Server.getCurrentUser server) storage2)
        as [[currentUser|error] storage3] eqn:E3; cbn [fst snd].
      * split; [|split; [done|split; [by right|]]].
        -- intros key value H. apply Hback.
           apply (call_lookup_Some (Server.getCurrentUser server)).
           by rewrite E3.
        -- rewrite Ht0, Hd0. simpl. rewrite Htt, Hdt. discriminate.
      * split; [|split; [done|split; [by right|]]].
        -- intros key value H. apply Hback.
           apply (call_lookup_Some (Server.getCurrentUser server)).
           rewrite E3. by apply lookup_cleared_Some.
        -- rewrite Ht0, Hd0. simpl. rewrite Htt, Hdt. discriminate.
    + cbn [fst snd]. rewrite Ha, Hu.
      split; [exact Hback'|]. split; [done|]. split; [by left|done].
  - cbn [fst snd]. rewrite Ha, Hu.
    split; [exact Hback|]. split; [done|]. split; [by left|done].
Qed.

Lemma initializeApp_restores_from_storage_witness :
  let r := App.initializeApp demoParse demoServer App.initial
             {[ js "token" := js "old" ]} in
  truthy_opt (({[ js "token" := js "old" ]} : Storage) !! js "token")
  && truthy_opt (({[ js "token" := js "old" ]} : Storage) !! js "user")
  = false
  /\ App.isAuthenticated r.1 = false
  /\ App.user r.1 = JNull.
Proof.
  intros r. split; [reflexivity|].
  exact (proj2 (proj2 (proj2 (initializeApp_restores_from_storage
                  demoParse demoServer App.initial
                  {[ js "token" := js "old" ]}))) eq_refl).
Defined.

(** X15. Restoring a session whose token the server no longer accepts:
    when the storage holds a non-empty token and a user text that parses,
    and the request for the current user is rejected, the token and the
    user are removed from the storage, yet the state stays authenticated
    with the user parsed from the storage.  When the request succeeds the
    user is the one the server returned and the storage is left as it is.
    (The two informational requests before are assumed not to answer
    401.) *)
Theorem initializeApp_rejected_token
  (JSON_parse : JsString -> option Json) (server : Server.t)
  (s : App.State) (storage : Storage)
  (token userData : JsString) (parsedUser : Json) :
  (forall headers error,
     Server.getAppInfo server headers = Err error ->
     Failure.status error ≠ Some 401%Z) ->
  (forall headers error,
     Server.healthCheck server headers = Err error ->
     Failure.status error ≠ Some 401%Z) ->
  storage !! js "token" = Some token -> token ≠ [] ->
  storage !! js "user" = Some userData -> userData ≠ [] ->
  JSON_parse userData = Some parsedUser ->
  let r := App.initializeApp JSON_parse server s storage in
  App.isAuthenticated r.1 = true
  /\ match Server.getCurrentUser server (sentWith storage) with
     | Ok currentUser => App.user r.1 = currentUser /\ r.2 = storage
     | Err error =>
         App.user r.1 = parsedUser
         /\ r.2 !! js "token" = None
         /\ r.2 !! js "user" = None
         /\ sentWith r.2 = defaultHeaders
     end.
Proof.
  intros Hinfo Hhealth Ht Htt Hd Hdt Hp r.
  unfold r, App.initializeApp. clear r.
  pose proof (call_not_401 _ storage Hinfo) as E1.
  destruct (call (Server.getAppInfo server) storage)
    as [info storage1]. simpl in E1. subst storage1. lazy beta iota zeta.
  pose proof (call_not_401 _ storage Hhealth) as E2.
  destruct (call (Server.healthCheck server) storage)
    as [health storage2]. simpl in E2. subst storage2. lazy beta iota zeta.
  unfold getItem. rewrite Ht, Hd.
  apply truthy_true in Htt, Hdt. rewrite Htt, Hdt, Hp. cbn [andb].
  destruct (call_cases (Server.getCurrentUser server) storage)
    as [(u & Hu & ->)|(e & He & ->)]; unfold sentWith; rewrite ?Hu, ?He;
    cbn [fst snd].
  - done.
  - split; [done|]. split; [done|].
    split; [apply lookup_cleared_token|].
    split; [apply lookup_cleared_user|].
    apply requestInterceptor_no_token. by rewrite lookup_cleared_token.
Qed.

Lemma initializeApp_rejected_token_witness :
  let r := App.initializeApp demoParse flakyServer App.initial savedSession in
  Server.getCurrentUser flakyServer (sentWith savedSession) = Err unavailable
  /\ App.isAuthenticated r.1 = true
  /\ App.user r.1 = demoUser
  /\ r.2 !! js "token" = None.
Proof.
  intros r. split; [reflexivity|].
  assert (forall (headers : Headers) (error : Failure.t),
            Ok (A := Json) JNull = Err error ->
            Failure.status error ≠ Some 401%Z) as Hpublic by discriminate.
  destruct (initializeApp_rejected_token demoParse flakyServer App.initial
              savedSession (js "old") (js "{...}") demoUser
              Hpublic Hpublic eq_refl ltac:(discriminate)
              eq_refl ltac:(discriminate) eq_refl)
    as (Ha & Hu & Ht & _).
  split; [exact Ha|]. split; [exact Hu | exact Ht].
Defined.

(** * The login form *)

Lemma errors_shown (detail : option Json) (message : option JsString) :
  let fallback :=
    match message with
    | Some m => if truthy m then JStr m else JStr (js "An error occurred")
    | None => JStr (js "An error occurred")
    end in
  let shown := js_or (js_or_opt detail (JStr <$> message))
                 (JStr (js "An error occurred")) in
  shown = match detail with
          | Some v => if truthy_json v then v else fallback
          | None => fallback
          end
  /\ truthy_json shown = true
  /\ (match detail with
      | Some (JStr _) | None => True
      | Some v => truthy_json v = false
      end -> nonEmptyText shown = true).
Proof.
  intros fallback shown. unfold shown, fallback, js_or_opt, js_or.
  destruct detail as [v|]; cbn [truthy_any].
  - destruct (truthy_json v) eqn:Hv.
    + rewrite Hv. split; [done|]. split; [done|].
      destruct v; try done; congruence.
    + destruct message as [m|]; cbn [fmap option_fmap option_map];
        cbn [truthy_json].
      * destruct (truthy m) eqn:Hm; cbn [truthy_json nonEmptyText];
          by rewrite ?Hm.
      * done.
  - destruct message as [m|]; cbn [fmap option_fmap option_map];
      cbn [truthy_json].
    + destruct (truthy m) eqn:Hm; cbn [truthy_json nonEmptyText];
        by rewrite ?Hm.
    + done.
Qed.

(** X16. Submitting the login form closes the modal exactly when the
    handler it calls ([handleLogin] in login mode, [handleRegister]
    otherwise) ends without an error; the state is then authenticated and
    the error state is the empty string.  Otherwise the error state gets
    the server's [detail], taken as it is, when that is truthy (a string,
    but also an array or object), else the error's message when that is
    not empty, else ["An error occurred"]: a truthy value, and a non-empty
    text whenever the [detail] is absent, falsy or a string; the modal
    stays as it was and [user] and [isAuthenticated] are unchanged.  Either
    way the typed form data and the mode are kept, the storage is the one
    the handler left, and the application's loading flag is down. *)
Theorem handleSubmit_closes_iff_signed_in
  (JSON_stringify : Json -> JsString) (server : Server.t)
  (form : LoginForm.State) (app : App.State) (storage : Storage) :
  let fd := LoginForm.formData form in
  let out : App.Outcome :=
    if LoginForm.isLoginMode form then
      App.handleLogin JSON_stringify server
        {| LoginCredentials.email := LoginForm.email fd;
           LoginCredentials.password := LoginForm.password fd |}
        app storage
    else
      App.handleRegister JSON_stringify server
        {| RegisterData.email := LoginForm.email fd;
           RegisterData.username := LoginForm.username fd;
           RegisterData.password := LoginForm.password fd |}
        app storage in
  let r := LoginForm.handleSubmit JSON_stringify server form app storage in
  let form' := r.1.1 in
  let app' := r.1.2 in
  LoginForm.formData form' = fd
  /\ LoginForm.isLoginMode form' = LoginForm.isLoginMode form
  /\ App.isLoading app' = false
  /\ r.2 = out.1.2
  /\ match out.2 with
     | None =>
         LoginForm.errors form' = JStr []
         /\ App.showLoginForm app' = false
         /\ App.isAuthenticated app' = true
     | Some error =>
         let fallback :=
           match Failure.message error with
           | Some m =>
               if truthy m then JStr m else JStr (js "An error occurred")
           | None => JStr (js "An error occurred")
           end in
         LoginForm.errors form'
         = match Failure.detail error with
           | Some v => if truthy_json v then v else fallback
           | None => fallback
           end
         /\ truthy_json (LoginForm.errors form') = true
         /\ (match Failure.detail error with
             | Some (JStr _) | None => True
             | Some v => truthy_json v = false
             end -> nonEmptyText (LoginForm.errors form') = true)
         /\ App.showLoginForm app' = App.showLoginForm app
         /\ App.isAuthenticated app' = App.isAuthenticated app
         /\ App.user app' = App.user app
     end.
Proof.
  intros fd out r form' app'.
  assert (App.isLoading out.1.1 = false
          /\ App.showLoginForm out.1.1 = App.showLoginForm app
          /\ match out.2 with
             | None => App.isAuthenticated out.1.1 = true
             | Some _ =>
                 App.isAuthenticated out.1.1 = App.isAuthenticated app
                 /\ App.user out.1.1 = App.user app
             end) as (Hl & Hf & Ha).
  { unfold out. destruct (LoginForm.isLoginMode form);
      [apply handleLogin_summary | apply handleRegister_summary]. }
  unfold form', app', r, LoginForm.handleSubmit. fold fd. fold out.
  clear r form' app'.
  destruct out as [[app1 storage1] [error|]]; cbn [fst snd] in *.
  - destruct Ha as [Ha Hu].
    destruct (errors_shown (Failure.detail error) (Failure.message error))
      as (He & Ht & Hn).
    split; [done|]. split; [done|]. split; [exact Hl|]. split; [done|].
    cbn [LoginForm.errors LoginForm.setErrors].
    split; [exact He|]. split; [exact Ht|]. split; [exact Hn|]. done.
  - split; [done|]. split; [done|]. split; [exact Hl|]. done.
Qed.

Lemma handleSubmit_closes_iff_signed_in_witness :
  let typed := LoginForm.handleChange LoginForm.passwordInput (js "demo123")
                 (LoginForm.handleChange LoginForm.emailInput
                    (js "demo@fashionstore.com") LoginForm.initial) in
  let r := LoginForm.handleSubmit demoStringify strictServer typed
             (App.setShowLoginForm true App.initial) ∅ in
  LoginForm.errors r.1.1 = JStr (js "Incorrect email or password")
  /\ nonEmptyText (LoginForm.errors r.1.1) = true
  /\ App.showLoginForm r.1.2 = true.
Proof.
  intros typed r.
  destruct (handleSubmit_closes_iff_signed_in demoStringify strictServer
              typed (App.setShowLoginForm true App.initial) ∅)
    as (_ & _ & _ & _ & He & _ & Hn & Hs & _).
  split; [exact He|]. split; [by apply Hn | exact Hs].
Defined.
